(** * Rossum hooks: searchable PDF and attachment consolidation

    A shallow embedding of the two hooks that build an OCR-overlay PDF
    and record it in a document relation:

    - [searchable_pdf/searchable_pdf.py]
    - [document_attachment_consolidation/document_attachment_consolidation.py]

    Python integers are [Z]; Python numbers that take part in a true
    division are exact rationals [Qc] (rounding of binary floats is outside
    the model); strings are [string]; JSON documents and the other Python
    values are the inductive [value]; exceptions are explicit outcomes; the
    remote service is an explicit [Store], threaded through every call
    together with the history of the requests made so far. *)

From Stdlib Require Import QArith Qcanon Ascii String.
From stdpp Require Import base numbers list strings pretty.

Open Scope Z_scope.

Set Warnings "-register-all".

(** ** Outcomes and the state-and-exception monad *)

(** The Python exceptions the modelled code can raise.  [HTTPError] is what
    [raise_for_status] raises on a non-success status. *)
Inductive exn :=
| KeyError | IndexError | TypeError | ValueError | AttributeError
| AssertionError | ZeroDivisionError
| HTTPError (status : Z).

(** A call returns, raises, or (for the [while] loops only) is cut by the
    fuel of the model. *)
Inductive outcome (A : Type) :=
| Ok (a : A)
| Raise (e : exn)
| OutOfFuel.
Arguments Ok {A} a.
Arguments Raise {A} e.
Arguments OutOfFuel {A}.

(** A computation over a world [W]: the world survives an exception, as the
    effects of the requests already made do. *)
Definition M (W A : Type) : Type := W → outcome A * W.

Definition ret {W A} (a : A) : M W A := λ w, (Ok a, w).
Definition raise {W A} (e : exn) : M W A := λ w, (Raise e, w).
Definition bind {W A B} (c : M W A) (k : A → M W B) : M W B :=
  λ w, match c w with
       | (Ok a, w') => k a w'
       | (Raise e, w') => (Raise e, w')
       | (OutOfFuel, w') => (OutOfFuel, w')
       end.
Definition lift {W A} (o : outcome A) : M W A := λ w, (o, w).

Notation "x <- c ;; k" := (bind c (λ x, k))
  (at level 100, c at next level, right associativity).
Notation "c ;;; k" := (bind c (λ _, k))
  (at level 100, right associativity).

(** [for x in l: body x] *)
Fixpoint for_each {W A} (l : list A) (body : A → M W unit) : M W unit :=
  match l with
  | [] => ret tt
  | x :: l' => body x ;;; for_each l' body
  end.

(** [[f x for x in l]] with a fallible [f] *)
Fixpoint map_M {W A B} (f : A → M W B) (l : list A) : M W (list B) :=
  match l with
  | [] => ret []
  | x :: l' => y <- f x ;; ys <- map_M f l' ;; ret (y :: ys)
  end.

(** ** Python values *)

(** JSON documents and the other values the hooks handle.  A JSON number
    without fraction is [VInt]; any other number is [VFloat], an exact
    rational.  A dict is an association list, looked up first match. *)
Inductive value :=
| VNone
| VBool (b : bool)
| VInt (n : Z)
| VFloat (q : Qc)
| VStr (s : string)
| VBytes (b : list Byte.byte)
| VList (l : list value)
| VDict (d : list (string * value)).

(** Truth value testing: [if v], [while v], [not v]. *)
Definition truthy (v : value) : bool :=
  match v with
  | VNone => false
  | VBool b => b
  | VInt n => negb (n =? 0)
  | VFloat q => negb (bool_decide (q = 0%Qc))
  | VStr s => negb (bool_decide (s = ""))
  | VBytes b => negb (bool_decide (b = []))
  | VList l => match l with [] => false | _ => true end
  | VDict d => match d with [] => false | _ => true end
  end.

Fixpoint assoc (k : string) (d : list (string * value)) : option value :=
  match d with
  | [] => None
  | (k', v) :: d' => if bool_decide (k' = k) then Some v else assoc k d'
  end.

(** [isinstance(v, dict) and k in v] *)
Definition dict_has (k : string) (v : value) : bool :=
  match v with
  | VDict d => bool_decide (is_Some (assoc k d))
  | _ => false
  end.

(** [v.get(k, default)]: only a dict has [get]. *)
Definition py_get (v : value) (k : string) (dflt : value) : outcome value :=
  match v with
  | VDict d => Ok (default dflt (assoc k d))
  | _ => Raise AttributeError
  end.

(** [v[k]] for a string key. *)
Definition py_item (v : value) (k : string) : outcome value :=
  match v with
  | VDict d => match assoc k d with Some x => Ok x | None => Raise KeyError end
  | _ => Raise TypeError
  end.

(** [v[0]] *)
Definition py_first (v : value) : outcome value :=
  match v with
  | VList (x :: _) => Ok x
  | VList [] => Raise IndexError
  | VStr s => match s with
              | String c _ => Ok (VStr (String c ""))
              | EmptyString => Raise IndexError
              end
  | VBytes (b :: _) => Ok (VInt (Z.of_N (Byte.to_N b)))
  | VBytes [] => Raise IndexError
  | VDict _ => Raise KeyError
  | _ => Raise TypeError
  end.

Fixpoint chars (s : string) : list string :=
  match s with
  | EmptyString => []
  | String c s' => String c "" :: chars s'
  end.

(** Iteration, as [for x in v], [list.extend(v)] and tuple unpacking do it. *)
Definition py_iter (v : value) : outcome (list value) :=
  match v with
  | VList l => Ok l
  | VDict d => Ok (VStr <$> d.*1)
  | VStr s => Ok (VStr <$> chars s)
  | VBytes b => Ok ((λ x, VInt (Z.of_N (Byte.to_N x))) <$> b)
  | _ => Raise TypeError
  end.

(** [len(v)] *)
Definition py_len (v : value) : outcome Z :=
  match v with
  | VList l => Ok (Z.of_nat (length l))
  | VDict d => Ok (Z.of_nat (length d))
  | VStr s => Ok (Z.of_nat (String.length s))
  | VBytes b => Ok (Z.of_nat (length b))
  | _ => Raise TypeError
  end.

(** The number a value stands for in arithmetic ([bool] is an [int]). *)
Definition py_num (v : value) : outcome Qc :=
  match v with
  | VInt n => Ok (Q2Qc (inject_Z n))
  | VFloat q => Ok q
  | VBool b => Ok (if b then 1%Qc else 0%Qc)
  | _ => Raise TypeError
  end.

(** True division [a / b]. *)
Definition py_truediv (a b : Qc) : outcome Qc :=
  if bool_decide (b = 0%Qc) then Raise ZeroDivisionError else Ok (a / b)%Qc.

(** [str(n)] for an [int], as an f-string renders it. *)
Definition py_str_int (n : Z) : string := pretty n.

(** [str(v)] inside an f-string, for the values that reach one. *)
Definition py_str (v : value) : outcome string :=
  match v with
  | VInt n => Ok (py_str_int n)
  | VStr s => Ok s
  | VNone => Ok "None"
  | VBool b => Ok (if b then "True" else "False")
  | _ => Raise TypeError
  end.

(** [s.split(sep)] for a one-character separator. *)
Fixpoint py_split (sep : ascii) (s : string) : list string :=
  match s with
  | EmptyString => [""]
  | String c s' =>
      if bool_decide (c = sep) then "" :: py_split sep s'
      else match py_split sep s' with
           | h :: t => String c h :: t
           | [] => [String c ""]
           end
  end.

(** [s.split("/")[-1]] *)
Definition last_segment (s : string) : string :=
  List.last (py_split "/" s) "".

(** [sep.join(l)] *)
Fixpoint py_join (sep : string) (l : list string) : string :=
  match l with
  | [] => ""
  | [x] => x
  | x :: l' => x +:+ sep +:+ py_join sep l'
  end.

(** ASCII white space as [str.isspace] sees it; text is a byte string, so a
    Unicode space outside ASCII is not recognised here. *)
Definition is_space (c : ascii) : bool :=
  let n := nat_of_ascii c in
  ((9 <=? n) && (n <=? 13) || (28 <=? n) && (n <=? 32))%nat.

Fixpoint lstrip (s : string) : string :=
  match s with
  | String c s' => if is_space c then lstrip s' else s
  | EmptyString => ""
  end.

Definition py_strip (s : string) : string :=
  String.rev (lstrip (String.rev (lstrip s))).

(** ** Ranges *)

(** [range(start, stop, step)] for a positive [step]; both call sites pass a
    positive literal.  The length is CPython's
    [(stop - start - 1) // step + 1] when [start < stop], else [0]. *)
Definition py_range (start stop step : Z) : list Z :=
  if bool_decide (start < stop)
  then (λ k : nat, start + Z.of_nat k * step)
         <$> seq 0 (Z.to_nat ((stop - start - 1) `div` step + 1))
  else [].

(** ** Chunking (identical nested helper of both [build_page_data_list]) *)

(** [[list(range(i, min(i + chunk_size, n + 1)))
      for i in range(1, n + 1, chunk_size)]] *)
Definition chunked_ranges (n chunk_size : Z) : list (list Z) :=
  (λ i, py_range i (Z.min (i + chunk_size) (n + 1)) 1)
    <$> py_range 1 (n + 1) chunk_size.

(** The default [chunk_size=20] of the source; every call uses it. *)
Definition default_chunk_size : Z := 20.

(** ** Page records *)

(** [PageData]: one page image, its size [(width, height)] and its OCR items. *)
Record PageData := {
  content : value;
  size : value * value;
  ocr_data : value;
}.

(** ** Overlay renderer ([create_ocr_overlay_pdf], the same text in both hooks) *)

(** The calls made on the reportlab canvas, in order. *)
Inductive canvas_op :=
| SetPageSize (size : value * value)
| DrawImage (image : value) (x y : Z) (width height : value)
| SetFillColorRGB (r g b : Z)
| SetFillAlpha (a : Z)
| SetFont (name : string) (size : Qc)
| SaveState
| Translate (dx dy : Qc)
| Scale (sx sy : Qc)
| DrawString (x y : Qc) (text : string)
| RestoreState
| ShowPage
| Save.

Definition canvas := list canvas_op.

Definition emit (op : canvas_op) : M canvas unit := λ c, (Ok tt, c ++ [op]).

(** [a, b, c, d = v] *)
Definition unpack4 (v : value) : outcome (value * value * value * value) :=
  match py_iter v with
  | Ok [a; b; c; d] => Ok (a, b, c, d)
  | Ok _ => Raise ValueError
  | Raise e => Raise e
  | OutOfFuel => OutOfFuel
  end.

(** [a - b] *)
Definition py_sub (a b : value) : outcome Qc :=
  match py_num a, py_num b with
  | Ok x, Ok y => Ok (x - y)%Qc
  | _, _ => Raise TypeError
  end.

Section renderer.

(** [canvas.stringWidth(text, fontName, fontSize)]: reportlab's font
    metrics, not code of the hooks. *)
Variable stringWidth : string → string → Qc → Qc.

Variable font_name : string.
Variable base_font_size : Qc.
Variable vertical_adjustment_factor : Qc.

(** [box_width / text_width if text_width else 1] *)
Definition x_scale_of (box_width text_width : Qc) : outcome Qc :=
  if truthy (VFloat text_width) then py_truediv box_width text_width
  else Ok 1%Qc.

(** The body of [for item in page.ocr_data], on a page of height [height]. *)
Definition overlay_item (height item : value) : M canvas unit :=
  position <- lift (py_item item "position") ;;
  p <- lift (unpack4 position) ;;
  let '(x0, y0, x1, y1) := p in
  text <- lift (py_item item "text") ;;
  match text with
  | VStr text =>
      (* Skip empty text to avoid issues *)
      if negb (truthy (VStr (py_strip text))) then ret tt
      else
        box_width <- lift (py_sub x1 x0) ;;
        box_height <- lift (py_sub y1 y0) ;;
        emit (SetFont font_name base_font_size) ;;;
        let text_width := stringWidth text font_name base_font_size in
        x_scale <- lift (x_scale_of box_width text_width) ;;
        y_scale <- lift (py_truediv box_height base_font_size) ;;
        y_baseline <- lift (py_sub height y1) ;;
        let vertical_adjustment :=
          (base_font_size * vertical_adjustment_factor)%Qc in
        emit SaveState ;;;
        tx <- lift (py_num x0) ;;
        emit (Translate tx y_baseline) ;;;
        emit (Scale x_scale y_scale) ;;;
        emit (DrawString 0%Qc vertical_adjustment text) ;;;
        emit RestoreState
  | _ => raise AttributeError
  end.

(** The body of [for page in pages]. *)
Definition overlay_page (page : PageData) : M canvas unit :=
  emit (SetPageSize (size page)) ;;;
  let '(width, height) := size page in
  emit (DrawImage (content page) 0 0 width height) ;;;
  emit (SetFillColorRGB 0 0 0) ;;;
  emit (SetFillAlpha 0) ;;;
  items <- lift (py_iter (ocr_data page)) ;;
  for_each items (overlay_item height) ;;;
  emit ShowPage.

(** The calls drawn into the returned buffer, or the exception. *)
Definition create_ocr_overlay_pdf (pages : list PageData) : outcome canvas :=
  match (for_each pages overlay_page ;;; emit Save) [] with
  | (Ok _, c) => Ok c
  | (Raise e, _) => Raise e
  | (OutOfFuel, _) => OutOfFuel
  end.

End renderer.

(** The defaults of the signature: ["Helvetica"], [10], [0.2]. *)
Definition default_font_name : string := "Helvetica".
Definition default_base_font_size : Qc := Q2Qc 10.
Definition default_vertical_adjustment_factor : Qc := Q2Qc (2 # 10).

(** ** Requests *)

Inductive method := GET | POST | PATCH | DELETE.

(** Where a request goes.  [Endpoint e i] is the URL that [ApiClient.get]
    and [ApiClient.post] build from an endpoint and an optional id (and what
    the SDK's [request_json] builds from a relative path); [Path e i] is
    [f"{api_url}{endpoint}/{id_}"] of [patch] and [delete]; [Link u] is an
    absolute URL taken from a payload or a response. *)
Inductive target :=
| Endpoint (endpoint : string) (id_ : option value)
| Path (endpoint : string) (id_ : value)
| Link (url : string).

(** One HTTP request: the query ([query_params] or [params=]), the [json=]
    body and the [files=] upload ([(filename, content)], the content being
    the rendered canvas). *)
Record Request := {
  req_method : method;
  req_target : target;
  req_params : list (string * value);
  req_json : option value;
  req_files : option (string * canvas);
}.

(** The request that follows a [next] link: same method and keyword
    arguments, the link as URL. *)
Definition next_request (rq : Request) (u : string) : Request :=
  {| req_method := req_method rq; req_target := Link u; req_params := [];
     req_json := req_json rq; req_files := req_files rq |}.

Definition request (m : method) (t : target) : Request :=
  {| req_method := m; req_target := t; req_params := [];
     req_json := None; req_files := None |}.

(** [needle in s] *)
Fixpoint str_contains (needle s : string) : bool :=
  String.prefix needle s
  || match s with
     | String _ s' => str_contains needle s'
     | EmptyString => false
     end.

(** [s.format(id=i)] on a string whose only replacement field is ["{id}"]. *)
Fixpoint format_id (fuel : nat) (s i : string) : string :=
  match fuel with
  | O => s
  | S fuel' =>
      if String.prefix "{id}" s
      then i +:+ format_id fuel' (String.substring 4 (String.length s - 4) s) i
      else match s with
           | String c s' => String c (format_id fuel' s' i)
           | EmptyString => ""
           end
  end.

(** The URL string of a target, lines 61-66 and 94-97 of the consolidation
    hook; the query of line 68 travels in [req_params]. *)
Definition url_of_target (api_url : string) (t : target) : outcome string :=
  match t with
  | Endpoint e None => Ok (api_url +:+ e)
  | Endpoint e (Some i) =>
      match py_str i with
      | Ok i =>
          if str_contains "{id}" e
          then Ok (format_id (S (String.length (api_url +:+ e))) (api_url +:+ e) i)
          else Ok (api_url +:+ e +:+ "/" +:+ i)
      | Raise x => Raise x
      | OutOfFuel => OutOfFuel
      end
  | Path e i =>
      match py_str i with
      | Ok i => Ok (api_url +:+ e +:+ "/" +:+ i)
      | Raise x => Raise x
      | OutOfFuel => OutOfFuel
      end
  | Link u => Ok u
  end.

(** ** The remote service *)

(** The Rossum API is not code of the hooks, which see it through their
    requests only.  What follows is the part of it the reconcilers use, the
    documents and the document relations of section 6 of the specification,
    as a deterministic state machine: a request is answered from the state
    and leaves a new state. *)

(** A document relation as the service stores it.  [rel_documents = None]
    stands for a relation whose [documents] field is absent. *)
Record Relation := {
  rel_id : Z;
  rel_type : string;
  rel_key : string;
  rel_annotation : string;
  rel_documents : option (list string);
  rel_url : string;
}.

(** The relations in listing order, the URLs of the live documents, and the
    ids the service hands out next. *)
Record Store := {
  st_api_url : string;
  st_relations : list Relation;
  st_documents : list string;
  st_next_relation : Z;
  st_next_document : Z;
}.

Definition relation_json (r : Relation) : value :=
  VDict ([("id", VInt (rel_id r)); ("type", VStr (rel_type r));
          ("key", VStr (rel_key r)); ("annotation", VStr (rel_annotation r))]
         ++ match rel_documents r with
            | Some ds => [("documents", VList (VStr <$> ds))]
            | None => []
            end
         ++ [("url", VStr (rel_url r))]).

Definition as_str (v : value) : option string :=
  match v with VStr s => Some s | _ => None end.

Definition as_strs (v : value) : option (list string) :=
  match v with VList l => mapM as_str l | _ => None end.

(** The SDK's typed view of a relation document. *)
Definition relation_of_json (v : value) : option Relation :=
  match v with
  | VDict d =>
      match assoc "id" d, assoc "type" d, assoc "key" d,
            assoc "annotation" d, assoc "url" d with
      | Some (VInt i), Some (VStr t), Some (VStr k), Some (VStr a), Some (VStr u) =>
          match assoc "documents" d with
          | Some ds =>
              match as_strs ds with
              | Some ds => Some {| rel_id := i; rel_type := t; rel_key := k;
                                   rel_annotation := a; rel_documents := Some ds;
                                   rel_url := u |}
              | None => None
              end
          | None => Some {| rel_id := i; rel_type := t; rel_key := k;
                            rel_annotation := a; rel_documents := None;
                            rel_url := u |}
          end
      | _, _, _, _, _ => None
      end
  | _ => None
  end.

(** A list response: everything in one page, [next] is [null]. *)
Definition list_response (results : list value) : value :=
  VDict [("pagination", VDict [("total", VInt (Z.of_nat (length results)));
                               ("next", VNone); ("previous", VNone)]);
         ("results", VList results)].

(** The [key] and [annotation] filters of [GET document_relations]: the
    annotation is given by id and stored by URL, whose last path segment is
    that id. *)
Definition relation_matches (key : string) (annotation : Z) (r : Relation) : bool :=
  bool_decide (rel_key r = key)
  && bool_decide (last_segment (rel_annotation r) = py_str_int annotation).

Definition relation_has_id (i : string) (r : Relation) : bool :=
  bool_decide (py_str_int (rel_id r) = i).

Definition set_documents (ds : list string) (r : Relation) : Relation :=
  {| rel_id := rel_id r; rel_type := rel_type r; rel_key := rel_key r;
     rel_annotation := rel_annotation r; rel_documents := Some ds;
     rel_url := rel_url r |}.

Definition with_relations (s : Store) (rs : list Relation) : Store :=
  {| st_api_url := st_api_url s; st_relations := rs;
     st_documents := st_documents s;
     st_next_relation := st_next_relation s;
     st_next_document := st_next_document s |}.

Definition with_documents (s : Store) (ds : list string) : Store :=
  {| st_api_url := st_api_url s; st_relations := st_relations s;
     st_documents := ds;
     st_next_relation := st_next_relation s;
     st_next_document := st_next_document s |}.

(** The name of the collection and of the member a target addresses. *)
Definition resource (t : target) : option (string * option string) :=
  match t with
  | Endpoint e None => Some (e, None)
  | Endpoint e (Some i) =>
      match py_str i with
      | Ok i => if str_contains "{id}" e then None else Some (e, Some i)
      | _ => None
      end
  | Path e i => match py_str i with Ok i => Some (e, Some i) | _ => None end
  | Link _ => None
  end.

Definition srv_list_relations (q : list (string * value)) (s : Store)
  : outcome value * Store :=
  match assoc "key" q, assoc "annotation" q with
  | Some (VStr k), Some (VInt a) =>
      (Ok (list_response
             (relation_json <$> filter (λ r, relation_matches k a r = true)
                                       (st_relations s))), s)
  | _, _ => (Raise (HTTPError 400), s)
  end.

Definition srv_retrieve_relation (i : string) (s : Store)
  : outcome value * Store :=
  match filter (λ r, relation_has_id i r = true) (st_relations s) with
  | r :: _ => (Ok (relation_json r), s)
  | [] => (Raise (HTTPError 404), s)
  end.

(** The relation a [POST document_relations] creates. *)
Definition new_relation (s : Store) (t k a : string) (ds : list string)
  : Relation :=
  {| rel_id := st_next_relation s; rel_type := t; rel_key := k;
     rel_annotation := a; rel_documents := Some ds;
     rel_url := st_api_url s +:+ "document_relations/"
                +:+ py_str_int (st_next_relation s) |}.

Definition create_store (r : Relation) (s : Store) : Store :=
  {| st_api_url := st_api_url s;
     st_relations := st_relations s ++ [r];
     st_documents := st_documents s;
     st_next_relation := st_next_relation s + 1;
     st_next_document := st_next_document s |}.

Definition srv_create_relation (body : option value) (s : Store)
  : outcome value * Store :=
  match body with
  | Some (VDict d) =>
      match assoc "type" d, assoc "key" d, assoc "annotation" d,
            from_option as_strs None (assoc "documents" d) with
      | Some (VStr t), Some (VStr k), Some (VStr a), Some ds =>
          let r := new_relation s t k a ds in
          (Ok (relation_json r), create_store r s)
      | _, _, _, _ => (Raise (HTTPError 400), s)
      end
  | _ => (Raise (HTTPError 400), s)
  end.

Definition patch_store (i : string) (ds : list string) (s : Store) : Store :=
  with_relations s
    ((λ r, if relation_has_id i r then set_documents ds r else r)
       <$> st_relations s).

Definition srv_patch_relation (i : string) (body : option value) (s : Store)
  : outcome value * Store :=
  match body with
  | Some (VDict d) =>
      match from_option as_strs None (assoc "documents" d),
            filter (λ r, relation_has_id i r = true) (st_relations s) with
      | Some ds, r :: _ =>
          (Ok (relation_json (set_documents ds r)), patch_store i ds s)
      | Some _, [] => (Raise (HTTPError 404), s)
      | None, _ => (Raise (HTTPError 400), s)
      end
  | _ => (Raise (HTTPError 400), s)
  end.

(** The URL the service gives the document with id [k]. *)
Definition document_url (s : Store) (k : Z) : string :=
  st_api_url s +:+ "documents/" +:+ py_str_int k.

Definition upload_store (s : Store) : Store :=
  {| st_api_url := st_api_url s;
     st_relations := st_relations s;
     st_documents := st_documents s ++ [document_url s (st_next_document s)];
     st_next_relation := st_next_relation s;
     st_next_document := st_next_document s + 1 |}.

Definition srv_upload_document (s : Store) : outcome value * Store :=
  (Ok (VDict [("id", VInt (st_next_document s));
              ("url", VStr (document_url s (st_next_document s)))]),
   upload_store s).

Definition delete_store (u : string) (s : Store) : Store :=
  with_documents s (filter (λ d, d ≠ u) (st_documents s)).

Definition srv_delete (u : string) (s : Store) : outcome value * Store :=
  if bool_decide (u ∈ st_documents s)
  then (Ok (VBytes []), delete_store u s)
  else (Raise (HTTPError 404), s).

(** The service, on the requests the two hooks send to store an artifact.
    Anything else is answered [404]. *)
Definition serve (rq : Request) (s : Store) : outcome value * Store :=
  match req_method rq with
  | DELETE =>
      match url_of_target (st_api_url s) (req_target rq) with
      | Ok u => srv_delete u s
      | _ => (Raise (HTTPError 404), s)
      end
  | m =>
      match resource (req_target rq) with
      | Some (e, i) =>
          if bool_decide (e = "document_relations") then
            match m, i with
            | GET, None => srv_list_relations (req_params rq) s
            | GET, Some i => srv_retrieve_relation i s
            | POST, None => srv_create_relation (req_json rq) s
            | PATCH, Some i => srv_patch_relation i (req_json rq) s
            | _, _ => (Raise (HTTPError 405), s)
            end
          else if bool_decide (e = "documents") then
            match m, i, req_files rq with
            | POST, None, Some _ => srv_upload_document s
            | _, _, _ => (Raise (HTTPError 400), s)
            end
          else (Raise (HTTPError 404), s)
      | None => (Raise (HTTPError 404), s)
      end
  end.

(** The world of a hook invocation: the service and the requests sent so
    far, each with the state the service was left in. *)
Record World := {
  store : Store;
  history : list (Request * Store);
}.

Definition http (rq : Request) : M World value :=
  λ w, let '(o, s) := serve rq (store w) in
       (o, {| store := s; history := history w ++ [(rq, s)] |}).

(** ** The consolidation hook
       ([document_attachment_consolidation.py]) *)

Module Consolidation.
Section client.

Context {W : Type}.

(** [HttpClient.call]: sends the request, raises [HTTPError] on a
    non-success status, returns [response.json()] (or [response.content]
    with [binary=True]).  URLs are absolute, so the ["https://"] branch of
    line 39 is the one taken. *)
Variable call : Request → M W value.

(** The loop of [ApiClient.get] (lines 70-78) and of [ApiClient.post]
    (lines 82-91): [rq] is the request for the current value of [url],
    [results] the list accumulated so far.  The first URL starts with
    [api_url] and is not empty, so the loop is entered; after that [url] is
    the [next] value of the last page, tested by [while url]. *)
Fixpoint paginate (fuel : nat) (rq : Request) (results : list value)
  : M W value :=
  match fuel with
  | O => λ w, (OutOfFuel, w)
  | S fuel' =>
      response <- call rq ;;
      if dict_has "results" response && dict_has "pagination" response then
        rs <- lift (py_get response "results" (VList [])) ;;
        items <- lift (py_iter rs) ;;
        pagination <- lift (py_get response "pagination" (VDict [])) ;;
        url <- lift (py_get pagination "next" VNone) ;;
        if truthy url then
          match url with
          | VStr u => paginate fuel' (next_request rq u) (results ++ items)
          | _ => raise AttributeError
          end
        else ret (VList (results ++ items))
      else ret response
  end.

(** A response of the paginated shape
    [{results: [...], pagination: {next: ...}}]. *)
Definition is_page (response : value) (items : list value) (next : value)
  : Prop :=
  ∃ d p, response = VDict d
         ∧ assoc "results" d = Some (VList items)
         ∧ assoc "pagination" d = Some (VDict p)
         ∧ assoc "next" p = Some next.

(** [paged rq w pages w']: from the world [w], the request [rq] and the
    [next] links after it are answered by pages holding the result lists
    [pages], the last of them with [next = null]; [w'] is the world after
    the last answer. *)
Inductive paged : Request → W → list (list value) → W → Prop :=
| paged_last rq w response items w' :
    call rq w = (Ok response, w') →
    is_page response items VNone →
    paged rq w [items] w'
| paged_next rq w response items u w1 rest w' :
    call rq w = (Ok response, w1) →
    is_page response items (VStr u) →
    u ≠ "" →
    paged (next_request rq u) w1 rest w' →
    paged rq w (items :: rest) w'.

(** [ApiClient.get(endpoint, id_, query_params)] *)
Definition get (fuel : nat) (endpoint : string) (id_ : option value)
    (query_params : list (string * value)) : M W value :=
  paginate fuel
    {| req_method := GET; req_target := Endpoint endpoint id_;
       req_params := query_params; req_json := None; req_files := None |}
    [].

(** [ApiClient.post(endpoint, **kwargs)] *)
Definition post (fuel : nat) (endpoint : string) (json : option value)
    (files : option (string * canvas)) : M W value :=
  paginate fuel
    {| req_method := POST; req_target := Endpoint endpoint None;
       req_params := []; req_json := json; req_files := files |}
    [].

(** [ApiClient.patch(endpoint, id_, **kwargs)] *)
Definition patch (endpoint : string) (id_ : value) (json : value) : M W value :=
  call {| req_method := PATCH; req_target := Path endpoint id_;
          req_params := []; req_json := Some json; req_files := None |}.

(** [ApiClient.delete(endpoint, id_)] *)
Definition delete (endpoint : string) (id_ : value) : M W value :=
  call (request DELETE (Path endpoint id_)).

(** [ApiClient.upload_document(filename, content)] *)
Definition upload_document (fuel : nat) (filename : string) (pdf : canvas)
  : M W value :=
  post fuel "documents" None (Some (filename, pdf)).

(** [ApiClient.create_or_update_relation(document, annotation, key)] *)
Definition create_or_update_relation (fuel : nat)
    (document annotation : value) (key : string) : M W value :=
  annotation_id <- lift (py_item annotation "id") ;;
  existing_relations <-
    get fuel "document_relations" None
      [("key", VStr key); ("annotation", annotation_id)] ;;
  if negb (truthy existing_relations) then
    document_url <- lift (py_item document "url") ;;
    annotation_url <- lift (py_item annotation "url") ;;
    new_relation <-
      post fuel "document_relations"
        (Some (VDict [("documents", VList [document_url]);
                      ("annotation", annotation_url);
                      ("type", VStr "export"); ("key", VStr key)]))
        None ;;
    (* the log line reads new_relation['id'] *)
    lift (py_item new_relation "id") ;;;
    ret new_relation
  else
    existing_relation <- lift (py_first existing_relations) ;;
    relation_id <- lift (py_item existing_relation "id") ;;
    document_url <- lift (py_item document "url") ;;
    new_relation <-
      patch "document_relations" relation_id
        (VDict [("documents", VList [document_url])]) ;;
    documents <- lift (py_get existing_relation "documents" VNone) ;;
    (if truthy documents then
       documents <- lift (py_item existing_relation "documents") ;;
       old <- lift (py_first documents) ;;
       match old with
       | VStr old =>
           let old_document_id := last_segment old in
           delete "documents" (VStr old_document_id) ;;; ret tt
       | _ => raise AttributeError
       end
     else ret tt) ;;;
    ret new_relation.

(** Lines 162-165 of [rossum_hook_request_handler]: upload the rendered
    PDF, then record it under the key. *)
Definition upload_and_relate (fuel : nat) (pdf_bytes : canvas)
    (annotation : value) (export_reference_key : string) : M W value :=
  annotation_id <- lift (py_item annotation "id") ;;
  filename <- lift (py_str annotation_id) ;;
  document <- upload_document fuel (filename +:+ ".pdf") pdf_bytes ;;
  (* the log line reads document['id'] *)
  lift (py_item document "id") ;;;
  create_or_update_relation fuel document annotation export_reference_key.

(** The OCR pages of one chunk: the request of lines 189-193 and the list
    comprehension of line 194. *)
Definition fetch_chunk (fuel : nat) (annotation : value) (chunk : list Z)
  : M W (list value) :=
  let page_nums := py_join "," (py_str_int <$> chunk) in
  annotation_id <- lift (py_item annotation "id") ;;
  ocr_data_response <-
    get fuel "annotations/{id}/page_data" (Some annotation_id)
      [("page_numbers", VStr page_nums); ("granularity", VStr "lines")] ;;
  results <- lift (py_get ocr_data_response "results" (VList [])) ;;
  results <- lift (py_iter results) ;;
  map_M (λ c, lift (py_get c "items" (VList []))) results.

(** One turn of [for annotation in annotations] (lines 181-202): the page
    URLs and the OCR pages the annotation contributes. *)
Definition fetch_annotation (fuel : nat) (annotation : value)
  : M W (list value * list value) :=
  pages <- lift (py_item annotation "pages") ;;
  n <- lift (py_len pages) ;;
  let chunks := chunked_ranges n default_chunk_size in
  pages <- lift (py_item annotation "pages") ;;
  page_urls <- lift (py_iter pages) ;;
  current_ocr_pages <- map_M (fetch_chunk fuel annotation) chunks ;;
  let current_ocr_pages := concat current_ocr_pages in
  (* Sanity check *)
  if bool_decide (n = Z.of_nat (length current_ocr_pages))
  then ret (page_urls, current_ocr_pages)
  else raise AssertionError.

(** One turn of [for ocr_data, page_url in zip(ocr_pages, page_urls)]. *)
Definition fetch_page (x : value * value) : M W PageData :=
  let '(ocr_data, page_url) := x in
  url <- lift (py_str page_url) ;;
  content <- call (request GET (Link (url +:+ "/content"))) ;;
  match content, page_url with
  | VBytes _, VStr page_url =>
      page_info <- call (request GET (Link page_url)) ;;
      width <- lift (py_item page_info "width") ;;
      height <- lift (py_item page_info "height") ;;
      ret {| content := content; size := (width, height);
             ocr_data := ocr_data |}
  | VBytes _, _ => raise AttributeError
  | _, _ => raise TypeError
  end.

(** [build_page_data_list(client, annotations)] *)
Definition build_page_data_list (fuel : nat) (annotations : list value)
  : M W (list PageData) :=
  fetched <- map_M (fetch_annotation fuel) annotations ;;
  let page_urls := concat (fetched.*1) in
  let ocr_pages := concat (fetched.*2) in
  map_M fetch_page (zip ocr_pages page_urls).

End client.
End Consolidation.

(** ** The searchable-PDF hook ([searchable_pdf.py]) *)

Module SearchablePdf.
Section client.

Context {W : Type}.

(** The transport under the SDK client: [internal_client.request_json],
    [internal_client.request(...).content] and the typed calls all send one
    request and raise [HTTPError] on a non-success status. *)
Variable call : Request → M W value.

(** The SDK's typed result: the response parsed into a relation. *)
Definition typed (v : value) : M W Relation :=
  match relation_of_json v with
  | Some r => ret r
  | None => raise ValueError
  end.

(** [client.retrieve_document_relation(relation_id)] *)
Definition retrieve_document_relation (relation_id : value) : M W Relation :=
  v <- call (request GET (Path "document_relations" relation_id)) ;;
  typed v.

(** [client.update_part_document_relation(relation_id, data)] *)
Definition update_part_document_relation (relation_id : value) (data : value)
  : M W Relation :=
  v <- call {| req_method := PATCH;
               req_target := Path "document_relations" relation_id;
               req_params := []; req_json := Some data; req_files := None |} ;;
  typed v.

(** [client.create_new_document_relation(data)] *)
Definition create_new_document_relation (data : value) : M W Relation :=
  v <- call {| req_method := POST;
               req_target := Endpoint "document_relations" None;
               req_params := []; req_json := Some data; req_files := None |} ;;
  typed v.

(** [find_document_relation(client, relation_key, annotation_id)] *)
Definition find_document_relation (relation_key : string)
    (annotation_id : value) : M W value :=
  let params := [("key", VStr relation_key); ("annotation", annotation_id)] in
  response <- call {| req_method := GET;
                      req_target := Endpoint "document_relations" None;
                      req_params := params; req_json := None;
                      req_files := None |} ;;
  results <- lift (py_get response "results" (VList [])) ;;
  if truthy results then
    first <- lift (py_first results) ;;
    lift (py_item first "id")
  else ret VNone.

(** [delete_document(client, document_url)] *)
Definition delete_document (document_url : string) : M W unit :=
  call (request DELETE (Link document_url)) ;;; ret tt.

(** [upload_document_to_rossum(client, pdf_bytes, annotation_id)] *)
Definition upload_document_to_rossum (pdf_bytes : canvas)
    (annotation_id : value) : M W value :=
  filename <- lift (py_str annotation_id) ;;
  document <- call {| req_method := POST;
                      req_target := Endpoint "documents" None;
                      req_params := []; req_json := None;
                      req_files := Some (filename +:+ ".pdf", pdf_bytes) |} ;;
  lift (py_item document "url").

(** [update_document_relation(client, relation_id, document_url)] *)
Definition update_document_relation (relation_id : value)
    (document_url : value) : M W string :=
  let data := VDict [("documents", VList [document_url])] in
  response <- update_part_document_relation relation_id data ;;
  ret (rel_url response).

(** [handle_existing_relation(client, relation_id, pdf_buffer,
    annotation_id)] *)
Definition handle_existing_relation (relation_id : value)
    (pdf_buffer : canvas) (annotation_id : value) : M W unit :=
  relation <- retrieve_document_relation relation_id ;;
  (match rel_documents relation with
   | Some (d :: _) => delete_document d
   | _ => ret tt
   end) ;;;
  (* Upload the new document *)
  document_url <- upload_document_to_rossum pdf_buffer annotation_id ;;
  (* Update the relation with the new document *)
  update_document_relation (VInt (rel_id relation)) document_url ;;;
  ret tt.

(** [create_document_relation(client, export_reference_key,
    annotation_url, document_url)] *)
Definition create_document_relation (export_reference_key : string)
    (annotation_url document_url : value) : M W string :=
  let data := VDict [("type", VStr "export");
                     ("key", VStr export_reference_key);
                     ("annotation", annotation_url);
                     ("documents", VList [document_url])] in
  response <- create_new_document_relation data ;;
  ret (rel_url response).

(** Lines 44-70 of [rossum_hook_request_handler]: record the rendered PDF
    under the configured key. *)
Definition store_pdf (export_reference_key : string) (annotation : value)
    (pdf_buffer : canvas) : M W value :=
  annotation_id <- lift (py_item annotation "id") ;;
  existing_relation_id <-
    find_document_relation export_reference_key annotation_id ;;
  (if truthy existing_relation_id then
     annotation_id <- lift (py_item annotation "id") ;;
     handle_existing_relation existing_relation_id pdf_buffer annotation_id
   else
     annotation_id <- lift (py_item annotation "id") ;;
     document_url <- upload_document_to_rossum pdf_buffer annotation_id ;;
     annotation_url <- lift (py_item annotation "url") ;;
     create_document_relation export_reference_key annotation_url
       document_url ;;;
     ret tt) ;;;
  ret (VDict [("messages", VList [])]).

(** The OCR pages of one chunk: the request of lines 102-107 and the list
    comprehension of line 109. *)
Definition fetch_chunk (annotation : value) (chunk : list Z)
  : M W (list value) :=
  let page_nums := py_join "," (py_str_int <$> chunk) in
  url <- lift (py_item annotation "url") ;;
  match url with
  | VStr url =>
      ocr_data_response <-
        call {| req_method := GET; req_target := Link (url +:+ "/page_data");
                req_params := [("granularity", VStr "lines");
                               ("page_numbers", VStr page_nums)];
                req_json := None; req_files := None |} ;;
      results <- lift (py_get ocr_data_response "results" (VList [])) ;;
      results <- lift (py_iter results) ;;
      map_M (λ c, lift (py_get c "items" (VList []))) results
  | _ => raise TypeError
  end.

(** One turn of [for i, url in enumerate(annotation["pages"])]: the OCR
    page is [ocr_data_pages[i]]. *)
Definition fetch_page (ocr_data_pages : list value) (x : nat * value)
  : M W PageData :=
  let '(i, url) := x in
  u <- lift (py_str url) ;;
  content <- call (request GET (Link (u +:+ "/content"))) ;;
  match content, url with
  | VBytes _, VStr url =>
      page_info <- call (request GET (Link url)) ;;
      width <- lift (py_item page_info "width") ;;
      height <- lift (py_item page_info "height") ;;
      match ocr_data_pages !! i with
      | Some ocr_data =>
          ret {| content := content; size := (width, height);
                 ocr_data := ocr_data |}
      | None => raise IndexError
      end
  | VBytes _, _ => raise AttributeError
  | _, _ => raise TypeError
  end.

(** [build_page_data_list(client, annotation)] *)
Definition build_page_data_list (annotation : value) : M W (list PageData) :=
  pages <- lift (py_item annotation "pages") ;;
  n <- lift (py_len pages) ;;
  let chunks := chunked_ranges n default_chunk_size in
  (* Fetch OCR data *)
  ocr_data_pages <- map_M (fetch_chunk annotation) chunks ;;
  let ocr_data_pages := concat ocr_data_pages in
  (* Sanity check *)
  if bool_decide (n = Z.of_nat (length ocr_data_pages)) then
    pages <- lift (py_item annotation "pages") ;;
    urls <- lift (py_iter pages) ;;
    map_M (fetch_page ocr_data_pages) (zip (seq 0 (length urls)) urls)
  else raise AssertionError.

End client.
End SearchablePdf.

(** ** Vocabulary of the statements *)

(** [doc.pages]: the page locations an annotation declares, in order. *)
Definition declared_pages (annotation : value) : list value :=
  match py_item annotation "pages" with
  | Ok pages => match py_iter pages with Ok urls => urls | _ => [] end
  | _ => []
  end.

(** A string without ["/"]: splitting it yields the string itself. *)
Definition no_slash (s : string) : Prop := py_split "/" s = [s].

(** The relations kept under a key for an annotation, in listing order. *)
Definition relations_for (key : string) (annotation_id : Z) (s : Store)
  : list Relation :=
  filter (λ r, relation_matches key annotation_id r = true) (st_relations s).

(** The documents a relation points at. *)
Definition documents_of (r : Relation) : list string :=
  default [] (rel_documents r).

(** No relation with id [i] points at a document that is not live. *)
Definition intact (i : Z) (s : Store) : Prop :=
  Forall (λ r, rel_id r = i → Forall (λ d, d ∈ st_documents s) (documents_of r))
         (st_relations s).

(** The world after a request that left the service in state [s]. *)
Definition logged (w : World) (rq : Request) (s : Store) : World :=
  {| store := s; history := history w ++ [(rq, s)] |}.

(** The requests of the reconcilers. *)
Definition upload_request (filename : string) (pdf : canvas) : Request :=
  {| req_method := POST; req_target := Endpoint "documents" None;
     req_params := []; req_json := None; req_files := Some (filename, pdf) |}.

Definition list_request (key : string) (annotation_id : Z) : Request :=
  {| req_method := GET; req_target := Endpoint "document_relations" None;
     req_params := [("key", VStr key); ("annotation", VInt annotation_id)];
     req_json := None; req_files := None |}.




(** The [POST document_relations] of the consolidation hook. *)
Definition create_request (key annotation_url document_url : string) : Request :=
  {| req_method := POST; req_target := Endpoint "document_relations" None;
     req_params := [];
     req_json := Some (VDict [("documents", VList [VStr document_url]);
                              ("annotation", VStr annotation_url);
                              ("type", VStr "export"); ("key", VStr key)]);
     req_files := None |}.

(** The [POST document_relations] of the searchable-PDF hook. *)
Definition sdk_create_request (key annotation_url document_url : string)
  : Request :=
  {| req_method := POST; req_target := Endpoint "document_relations" None;
     req_params := [];
     req_json := Some (VDict [("type", VStr "export"); ("key", VStr key);
                              ("annotation", VStr annotation_url);
                              ("documents", VList [VStr document_url])]);
     req_files := None |}.



(** What both handlers return. *)
Definition messages : value := VDict [("messages", VList [])].

(** ** Worked examples *)

(** The token of the worked example: box (10, 20, 60, 40). *)
Definition example_token : value :=
  VDict [("text", VStr "Total");
         ("position", VList [VInt 10; VInt 20; VInt 60; VInt 40])].

(** Three linked pages of ten results each, and a bare resource. *)
Definition example_page (first : Z) (next : value) : value :=
  VDict [("pagination", VDict [("next", next)]);
         ("results", VList (VInt <$> seqZ first 10))].

Definition example_paged_call (rq : Request) : M unit value :=
  λ w,
    match req_target rq with
    | Endpoint e None =>
        if bool_decide (e = "items")
        then (Ok (example_page 1 (VStr "https://x.test/api/v1/items?page=2")), w)
        else if bool_decide (e = "items/7")
        then (Ok (VDict [("id", VInt 7)]), w)
        else (Raise (HTTPError 404), w)
    | Link u =>
        if bool_decide (u = "https://x.test/api/v1/items?page=2")
        then (Ok (example_page 11 (VStr "https://x.test/api/v1/items?page=3")), w)
        else if bool_decide (u = "https://x.test/api/v1/items?page=3")
        then (Ok (example_page 21 VNone), w)
        else (Raise (HTTPError 404), w)
    | _ => (Raise (HTTPError 404), w)
    end.

(** [s.endswith(suffix)] *)
Definition str_endswith (suffix s : string) : bool :=
  String.prefix (String.rev suffix) (String.rev s).

(** A service for the assembler: every [page_data] request is answered with
    the OCR pages [ocr], a page's content with three bytes, a page with its
    size 100 x 200. *)
Definition example_pages_call (ocr : list value) (rq : Request) : M unit value :=
  λ w,
    match req_target rq with
    | Endpoint _ (Some _) => (Ok (VDict [("results", VList ocr)]), w)
    | Link u =>
        if str_endswith "/page_data" u
        then (Ok (VDict [("results", VList ocr)]), w)
        else if str_endswith "/content" u
        then (Ok (VBytes [Byte.x01; Byte.x02; Byte.x03]), w)
        else (Ok (VDict [("width", VInt 100); ("height", VInt 200)]), w)
    | _ => (Raise (HTTPError 404), w)
    end.

Definition example_ocr_page (text : string) : value :=
  VDict [("page_number", VInt 1);
         ("items", VList [VDict [("text", VStr text);
                                 ("position", VList [VInt 10; VInt 20;
                                                     VInt 60; VInt 40])]])].

(** An annotation with two pages. *)
Definition example_annotation : value :=
  VDict [("id", VInt 5);
         ("url", VStr "https://x.test/api/v1/annotations/5");
         ("pages", VList [VStr "https://x.test/api/v1/pages/51";
                          VStr "https://x.test/api/v1/pages/52"])].




(** The methods of the requests of a piece of history, in order. *)
Definition methods (h : list (Request * Store)) : list method :=
  (λ e, req_method e.1) <$> h.

(** A service with one relation, for annotation 5 under the key ["k"],
    pointing at two live documents. *)
Definition example_api : string := "https://x.test/api/v1/".

Definition example_relation (documents : option (list string)) : Relation :=
  {| rel_id := 7; rel_type := "export"; rel_key := "k";
     rel_annotation := "https://x.test/api/v1/annotations/5";
     rel_documents := documents;
     rel_url := "https://x.test/api/v1/document_relations/7" |}.







Global Instance intact_dec i s : Decision (intact i s).
Proof. unfold intact. apply _. Defined.


(** ** Vocabulary of the renderer statements *)


(** The sizes given to [setPageSize], in order. *)
Definition page_sizes (c : canvas) : list (value * value) :=
  omap (λ op, match op with SetPageSize s => Some s | _ => None end) c.

(** The images given to [drawImage], with the width and height they are
    drawn at, in order. *)
Definition images (c : canvas) : list (value * value * value) :=
  omap (λ op, match op with
              | DrawImage i _ _ w h => Some (i, w, h)
              | _ => None
              end) c.

(** The number of finished pages: the calls of [showPage]. *)
Definition shown_pages (c : canvas) : nat :=
  length (omap (λ op, match op with ShowPage => Some tt | _ => None end) c).

(** The calls the body of the item loop can make. *)
Definition item_op (op : canvas_op) : Prop :=
  match op with
  | SetFont _ _ | SaveState | Translate _ _ | Scale _ _
  | DrawString _ _ _ | RestoreState => True
  | _ => False
  end.

(** A page record with the token of the worked example. *)
Definition example_page_record : PageData :=
  {| content := VBytes [Byte.x01; Byte.x02; Byte.x03];
     size := (VInt 100, VInt 200);
     ocr_data := VList [example_token] |}.

(** ** Vocabulary of the pagination statements *)

(** [linked call rq w pages rq' w']: from the world [w], the request [rq]
    and the links after it are answered by pages holding the result lists
    [pages], each with a [next] link; [rq'] is the request for the link of
    the last of them and [w'] the world it is sent in. *)
Inductive linked {W} (call : Request → M W value)
  : Request → W → list (list value) → Request → W → Prop :=
| linked_nil rq w : linked call rq w [] rq w
| linked_cons rq w response items u w1 rest rq' w' :
    call rq w = (Ok response, w1) →
    Consolidation.is_page response items (VStr u) →
    u ≠ "" →
    linked call (next_request rq u) w1 rest rq' w' →
    linked call rq w (items :: rest) rq' w'.

(** The first request of [ApiClient.get]. *)
Definition get_request (endpoint : string) (id_ : option value)
    (query_params : list (string * value)) : Request :=
  {| req_method := GET; req_target := Endpoint endpoint id_;
     req_params := query_params; req_json := None; req_files := None |}.

(** A service with a first page of ten results linked to a second URL,
    which is answered by [second]. *)
Definition example_second_call (second : outcome value) (rq : Request)
  : M unit value :=
  λ w,
    match req_target rq with
    | Endpoint e None =>
        if bool_decide (e = "items")
        then (Ok (example_page 1 (VStr "https://x.test/api/v1/items?page=2")), w)
        else (Raise (HTTPError 404), w)
    | Link u =>
        if bool_decide (u = "https://x.test/api/v1/items?page=2")
        then (second, w)
        else (Raise (HTTPError 404), w)
    | _ => (Raise (HTTPError 404), w)
    end.

(** A service whose every answer is a page linked to itself. *)
Definition example_loop_call (rq : Request) : M unit value :=
  λ w, (Ok (example_page 1 (VStr "https://x.test/api/v1/items")), w).

(** A service that answers every [page_data] request in the paginated
    shape. *)
Definition example_paginated_pages_call (ocr : list value) (rq : Request)
  : M unit value :=
  λ w, (Ok (list_response ocr), w).


(** A service whose only relation carries the id [0]. *)
Definition example_zero_id_world : World :=
  {| store := {| st_api_url := example_api;
                 st_relations :=
                   [{| rel_id := 0; rel_type := "export"; rel_key := "k";
                       rel_annotation := "https://x.test/api/v1/annotations/5";
                       rel_documents :=
                         Some ["https://x.test/api/v1/documents/1"];
                       rel_url :=
                         "https://x.test/api/v1/document_relations/0" |}];
                 st_documents := ["https://x.test/api/v1/documents/1"];
                 st_next_relation := 1;
                 st_next_document := 2 |};
     history := [] |}.

(** ** The handlers *)

(** [v == s] for a string literal [s]: only a [str] equals a [str]. *)
Definition py_eq_str (v : value) (s : string) : bool :=
  match v with
  | VStr t => bool_decide (t = s)
  | _ => false
  end.

(** A [for] loop that updates one variable. *)
Fixpoint fold_M {W A B} (f : B → A → M W B) (l : list A) (b : B) : M W B :=
  match l with
  | [] => ret b
  | x :: l' => b' <- f b x ;; fold_M f l' b'
  end.

(** The keyword arguments [**payload["settings"]] of [Settings] and of
    [Configuration], dataclasses with the one field
    [export_reference_key: str]: anything but a mapping with exactly that
    keyword is a [TypeError].  The field is declared [str] and
    read as one here; a dataclass does not check the type, and what the
    hooks do with a key of another type is outside the model (the
    statements that depend on the settings assume a string). *)
Definition dataclass_fields (kwargs : value) : outcome string :=
  match kwargs with
  | VDict [(k, VStr v)] =>
      if bool_decide (k = "export_reference_key") then Ok v
      else Raise TypeError
  | _ => Raise TypeError
  end.

(** [d[k] = v] on a dict in insertion order whose keys are any hashable
    values: a key that is present keeps its place and gets the new value, a
    new key goes to the end.  The key stored is a [str], and only a [str]
    equals it. *)
Fixpoint dict_set (k : string) (v : value) (d : list (value * value))
  : list (value * value) :=
  match d with
  | [] => [(VStr k, v)]
  | (k', v') :: d' =>
      if py_eq_str k' k then (k', v) :: d'
      else (k', v') :: dict_set k v d'
  end.

Module ConsolidationHandler.

(** [Settings] *)
Record Settings := { export_reference_key : string }.

Section handler.

Context {W : Type}.
Variable call : Request → M W value.
Variable stringWidth : string → string → Qc → Qc.

(** The body of [for annotation in relation["annotations"]] (lines 151-155):
    [acc] is [annotations_to_process]. *)
Definition add_related (fuel : nat) (relation : value)
    (acc : list (value * value)) (annotation : value)
  : M W (list (value * value)) :=
  match annotation with
  | VStr a =>
      let id_ := last_segment a in
      fetched <- Consolidation.get call fuel "annotations" (Some (VStr id_)) [] ;;
      (* the log line reads relation['id'] *)
      lift (py_item relation "id") ;;;
      ret (dict_set a fetched acc)
  | VBytes _ => raise TypeError
  | _ => raise AttributeError
  end.

(** The body of [for relation in relations] (lines 150-155). *)
Definition add_relation (fuel : nat) (acc : list (value * value))
    (relation : value) : M W (list (value * value)) :=
  annotations <- lift (py_item relation "annotations") ;;
  annotations <- lift (py_iter annotations) ;;
  fold_M (add_related fuel relation) annotations acc.

(** [rossum_hook_request_handler(payload)] *)
Definition rossum_hook_request_handler (fuel : nat) (payload : value)
  : M W value :=
  token <- lift (py_get payload "rossum_authorization_token" VNone) ;;
  if negb (truthy token) then raise ValueError
  else
    event <- lift (py_item payload "event") ;;
    wanted <- (if py_eq_str event "annotation_content" then
                 action <- lift (py_item payload "action") ;;
                 ret (py_eq_str action "confirm" || py_eq_str action "export")
               else ret false) ;;
    if negb wanted then
      (* the log line reads payload['event'] and
         payload['annotation']['status'] *)
      lift (py_item payload "event") ;;;
      annotation <- lift (py_item payload "annotation") ;;
      lift (py_item annotation "status") ;;;
      ret messages
    else
      (* HttpClient(payload) *)
      lift (py_item payload "base_url") ;;;
      lift (py_item payload "rossum_authorization_token") ;;;
      kwargs <- lift (py_item payload "settings") ;;
      key <- lift (dataclass_fields kwargs) ;;
      let settings := {| export_reference_key := key |} in
      (* adding the parent first *)
      annotation <- lift (py_item payload "annotation") ;;
      url <- lift (py_item annotation "url") ;;
      match url with
      | VList _ | VDict _ => raise TypeError
      | _ =>
          let annotations_to_process := [(url, annotation)] in
          (* the log line reads payload['annotation']['id'] *)
          lift (py_item annotation "id") ;;;
          parent_id <- lift (py_item annotation "id") ;;
          relations <-
            Consolidation.get call fuel "relations" None
              [("parent", parent_id); ("type", VStr "attachment")] ;;
          relations <- lift (py_iter relations) ;;
          annotations_to_process <-
            fold_M (add_relation fuel) relations annotations_to_process ;;
          page_data_list <-
            Consolidation.build_page_data_list call fuel
              (annotations_to_process.*2) ;;
          pdf_bytes <-
            lift (create_ocr_overlay_pdf stringWidth default_font_name
                    default_base_font_size default_vertical_adjustment_factor
                    page_data_list) ;;
          Consolidation.upload_and_relate call fuel pdf_bytes annotation
            (export_reference_key settings) ;;;
          ret messages
      end.

End handler.
End ConsolidationHandler.

Module SearchablePdfHandler.

(** [Configuration] *)
Record Configuration := { export_reference_key : string }.

(** [ConfigurationError(message)]: the text the exception carries. *)
Record ConfigurationError := { error_message : string }.

Definition configuration_error (message : string) : ConfigurationError :=
  {| error_message := "Configuration Error: " +:+ message |}.

(** [get_rossum_client(payload)]: the client is the transport [call] of the
    handler, so what is left is whether it can be built: [inl] is the
    [ConfigurationError], [inr] any other outcome. *)
Definition get_rossum_client (payload : value)
  : ConfigurationError + outcome unit :=
  match py_get payload "rossum_authorization_token" VNone with
  | Ok token =>
      if negb (truthy token)
      then inl (configuration_error "Missing token owner of extension")
      else
        inr match py_item payload "base_url" with
            | Ok (VStr _) => Ok tt
            | Ok _ => Raise TypeError
            | Raise e => Raise e
            | OutOfFuel => OutOfFuel
            end
  | Raise e => inr (Raise e)
  | OutOfFuel => inr OutOfFuel
  end.

Section handler.

Context {W : Type}.
Variable call : Request → M W value.
Variable stringWidth : string → string → Qc → Qc.

(** Lines 37-70 of [rossum_hook_request_handler], after the client is
    built. *)
Definition handle (payload : value) : M W value :=
  kwargs <- lift (py_item payload "settings") ;;
  key <- lift (dataclass_fields kwargs) ;;
  let config := {| export_reference_key := key |} in
  annotation <- lift (py_item payload "annotation") ;;
  pages <- SearchablePdf.build_page_data_list call annotation ;;
  pdf_buffer <-
    lift (create_ocr_overlay_pdf stringWidth default_font_name
            default_base_font_size default_vertical_adjustment_factor
            pages) ;;
  annotation <- lift (py_item payload "annotation") ;;
  SearchablePdf.store_pdf call (export_reference_key config) annotation
    pdf_buffer.

(** [rossum_hook_request_handler(payload)] *)
Definition rossum_hook_request_handler (payload : value)
  : W → (ConfigurationError + outcome value) * W :=
  λ w, match get_rossum_client payload with
       | inl e => (inl e, w)
       | inr (Ok _) => let '(o, w') := handle payload w in (inr o, w')
       | inr (Raise e) => (inr (Raise e), w)
       | inr OutOfFuel => (inr OutOfFuel, w)
       end.

End handler.
End SearchablePdfHandler.

(** ** Traces *)

(** A transport that also records the requests it is given, in order. *)
Definition traced {W} (call : Request → M W value)
  : Request → M (W * list Request) value :=
  λ rq σ, let '(o, w') := call rq σ.1 in (o, (w', σ.2 ++ [rq])).

Definition is_get (rq : Request) : Prop := req_method rq = GET.

(** [sends P c]: whatever [c] does, it only adds requests to the trace, and
    all of them satisfy [P]. *)
Definition sends {W A} (P : Request → Prop) (c : M (W * list Request) A)
  : Prop :=
  ∀ σ, ∃ g, (c σ).2.2 = σ.2 ++ g ∧ Forall P g.

(** ** URLs of the consolidation hook's client *)

(** [ApiClient.api_url] (line 53) *)
Definition api_url (base_url : string) : string := base_url +:+ "/api/v1/".

(** The URL [HttpClient.call] requests for [endpoint] (lines 39-42). *)
Definition call_url (base_url endpoint : string) : string :=
  if String.prefix "https://" endpoint then endpoint
  else base_url +:+ "/api/v1/" +:+ endpoint.

(** A transport that answers every request with the same resource. *)
Definition example_constant_call (v : value) (rq : Request) : M unit value :=
  λ w, (Ok v, w).

(** A payload for the two handlers: an export of annotation 5 under the key
    ["k"]. *)
Definition example_payload (event : string) (token : value) : value :=
  VDict [("rossum_authorization_token", token);
         ("base_url", VStr "https://x.test");
         ("event", VStr event); ("action", VStr "export");
         ("settings", VDict [("export_reference_key", VStr "k")]);
         ("annotation", example_annotation)].

(** A service for a whole run: no attachment relation and no document
    relation yet, two OCR pages for the annotation, and the document 9 for
    an upload. *)
Definition example_hook_call (rq : Request) : M unit value :=
  match req_method rq, req_target rq with
  | GET, Endpoint _ None => λ w, (Ok (list_response []), w)
  | GET, _ =>
      example_pages_call [example_ocr_page "Total"; example_ocr_page "Due"] rq
  | POST, Endpoint e None =>
      λ w,
        if bool_decide (e = "documents")
        then (Ok (VDict [("id", VInt 9);
                         ("url", VStr "https://x.test/api/v1/documents/9")]),
              w)
        else (Ok (relation_json
                    (example_relation
                       (Some ["https://x.test/api/v1/documents/9"]))), w)
  | _, _ => λ w, (Raise (HTTPError 404), w)
  end.

(** Font metrics for the examples: five points a character. *)
Definition example_stringWidth (text font_name : string) (font_size : Qc) : Qc :=
  Q2Qc (inject_Z (5 * Z.of_nat (String.length text))).

(** ** Vocabulary of the layout and failure statements *)

(** What opens every page: its size, its image over the whole page, black
    as fill colour and a fill alpha of zero. *)
Definition page_header (page : PageData) : canvas :=
  [SetPageSize (size page);
   DrawImage (content page) 0 0 (size page).1 (size page).2;
   SetFillColorRGB 0 0 0; SetFillAlpha 0].

(** A finished page whose items made the calls [drawn]. *)
Definition page_block (page : PageData) (drawn : canvas) : canvas :=
  page_header page ++ drawn ++ [ShowPage].

(** [raises_only Q c]: every exception that [c] raises satisfies [Q]. *)
Definition raises_only {W A} (Q : exn → Prop) (c : M W A) : Prop :=
  ∀ w e w', c w = (Raise e, w') → Q e.

(** * Properties *)

Section chunking.

Lemma py_range_step1 a b : py_range a b 1 = seqZ a (b - a).
Proof.
  unfold py_range. case_bool_decide as Hab.
  - unfold seqZ. replace ((b - a - 1) `div` 1 + 1) with (b - a)
      by (rewrite Z.div_1_r; lia).
    apply list_fmap_ext. intros _ k _. lia.
  - by rewrite seqZ_nil by lia.
Qed.

(** Number of chunk starts produced for [n] pages. *)
Lemma py_range_starts n c :
  0 < c → 0 ≤ n →
  py_range 1 (n + 1) c
  = (λ k : nat, 1 + Z.of_nat k * c) <$> seq 0 (Z.to_nat ((n + c - 1) `div` c)).
Proof.
  intros Hc Hn. unfold py_range. case_bool_decide as H1.
  - do 3 f_equal. replace (n + 1 - 1 - 1) with (n - 1) by lia.
    replace (n + c - 1) with (n - 1 + 1 * c) by lia.
    rewrite Z.div_add by lia. done.
  - assert (n = 0) as -> by lia.
    replace (0 + c - 1) with (c - 1) by lia.
    rewrite Z.div_small by lia. done.
Qed.

(** The first [m] chunks cover exactly the pages [1 .. min (m*c) n]. *)
Lemma chunks_prefix n c (m : nat) :
  0 < c → 0 ≤ n → Z.of_nat m ≤ (n + c - 1) `div` c →
  concat ((λ i, py_range i (Z.min (i + c) (n + 1)) 1)
            <$> ((λ k : nat, 1 + Z.of_nat k * c) <$> seq 0 m))
  = seqZ 1 (Z.min (Z.of_nat m * c) n).
Proof.
  intros Hc Hn. induction m as [|m IH]; intros Hm.
  - simpl. by rewrite seqZ_nil by lia.
  - rewrite seq_S, !fmap_app, concat_app, IH by lia. simpl.
    rewrite app_nil_r, py_range_step1.
    assert (Z.of_nat m * c < n) as Hlt.
    { assert (Z.of_nat m + 1 ≤ (n + c - 1) `div` c) as Hle by lia.
      pose proof (Z.mul_div_le (n + c - 1) c Hc).
      assert (c * (Z.of_nat m + 1) ≤ c * ((n + c - 1) `div` c)) by nia.
      nia. }
    rewrite (Z.min_l (Z.of_nat m * c) n) by lia.
    replace (Z.of_nat (S m) * c) with (Z.of_nat m * c + c) by nia.
    set (x := Z.of_nat m * c) in *.
    replace (Z.min (x + c) n) with (x + (Z.min (1 + x + c) (n + 1) - (1 + x)))
      by lia.
    rewrite seqZ_app by lia. done.
Qed.

Lemma chunked_ranges_concat n c :
  0 < c → 0 ≤ n → concat (chunked_ranges n c) = seqZ 1 n.
Proof.
  intros Hc Hn. unfold chunked_ranges. rewrite py_range_starts by done.
  assert (0 ≤ (n + c - 1) `div` c) as Hq by (apply Z.div_pos; lia).
  rewrite chunks_prefix by lia.
  f_equal. apply Z.min_r. rewrite Z2Nat.id by done.
  pose proof (Z.mul_succ_div_gt (n + c - 1) c Hc). lia.
Qed.

(** Every chunk is a run of consecutive page numbers, not empty and not
    longer than the chunk size. *)
Lemma chunked_ranges_chunks n c :
  0 < c → 0 ≤ n →
  Forall (λ ch, ∃ a, ch = seqZ a (Z.of_nat (length ch))
                     ∧ 0 < Z.of_nat (length ch) ≤ c)
         (chunked_ranges n c).
Proof.
  intros Hc Hn. unfold chunked_ranges. rewrite py_range_starts by done.
  apply Forall_fmap, Forall_fmap, Forall_forall. intros k Hk. simpl.
  apply elem_of_seq in Hk as [_ Hk]. simpl in Hk.
  assert (0 ≤ (n + c - 1) `div` c) as Hq by (apply Z.div_pos; lia).
  assert (Z.of_nat k * c < n) as Hlt.
  { assert (Z.of_nat k + 1 ≤ (n + c - 1) `div` c) as Hle by lia.
    pose proof (Z.mul_div_le (n + c - 1) c Hc).
    assert (c * (Z.of_nat k + 1) ≤ c * ((n + c - 1) `div` c)) by nia.
    nia. }
  rewrite py_range_step1, length_seqZ.
  exists (1 + Z.of_nat k * c). split; [f_equal|]; lia.
Qed.

End chunking.

(** C8. The page numbers [1 .. n] of a document with [n] pages are cut into
    chunks of consecutive numbers, each of at least one and at most 20
    numbers, which put end to end give [1 .. n] again: increasing, without
    gap or overlap.  For 45 pages the chunks are [1..20], [21..40] and
    [41..45]. *)
Theorem chunked_ranges_partition (n : nat) :
  concat (chunked_ranges (Z.of_nat n) default_chunk_size) = seqZ 1 (Z.of_nat n)
  ∧ Forall (λ ch, ∃ a, ch = seqZ a (Z.of_nat (length ch))
                       ∧ 0 < Z.of_nat (length ch) ≤ 20)
           (chunked_ranges (Z.of_nat n) default_chunk_size)
  ∧ chunked_ranges 45 default_chunk_size = [seqZ 1 20; seqZ 21 20; seqZ 41 5].
Proof.
  split; [|split].
  - apply chunked_ranges_concat; unfold default_chunk_size; lia.
  - apply chunked_ranges_chunks; unfold default_chunk_size; lia.
  - reflexivity.
Qed.

(** ** The monad *)

Lemma bind_ok {W A B} (c : M W A) (k : A → M W B) w a w' :
  c w = (Ok a, w') → bind c k w = k a w'.
Proof. unfold bind. by intros ->. Qed.

Lemma bind_raise {W A B} (c : M W A) (k : A → M W B) w e w' :
  c w = (Raise e, w') → bind c k w = (Raise e, w').
Proof. unfold bind. by intros ->. Qed.

Lemma bind_inv_ok {W A B} (c : M W A) (k : A → M W B) w b w' :
  bind c k w = (Ok b, w') → ∃ a w1, c w = (Ok a, w1) ∧ k a w1 = (Ok b, w').
Proof.
  unfold bind. destruct (c w) as [[a| |] w1] eqn:Hc; [eauto|done..].
Qed.

(** ** The overlay renderer *)

Section render_props.

Variable stringWidth : string → string → Qc → Qc.
Variables (font_name : string).
Variables (base_font_size vertical_adjustment_factor : Qc).





End render_props.





(** ** The paginated fetch *)

Section pagination.

Context {W : Type}.
Variable call : Request → M W value.

Lemma is_page_shape response items next :
  Consolidation.is_page response items next →
  dict_has "results" response && dict_has "pagination" response = true
  ∧ py_get response "results" (VList []) = Ok (VList items)
  ∧ ∃ p, py_get response "pagination" (VDict []) = Ok (VDict p)
         ∧ py_get (VDict p) "next" VNone = Ok next.
Proof.
  intros (d & p & -> & Hr & Hp & Hn). simpl. rewrite Hr, Hp. simpl.
  split; [|split; [done|]].
  - done.
  - exists p. by rewrite Hn.
Qed.

(** The loop appends the pages in the order they are received. *)
Lemma paginate_paged rq w pages w' :
  Consolidation.paged call rq w pages w' →
  ∀ fuel acc, (length pages ≤ fuel)%nat →
    Consolidation.paginate call fuel rq acc w
    = (Ok (VList (acc ++ concat pages)), w').
Proof.
  induction 1 as [rq w response items w' Hcall Hpage
                 |rq w response items u w1 rest w' Hcall Hpage Hu _ IH];
    intros [|fuel] acc Hfuel; simpl in Hfuel; try lia;
    apply is_page_shape in Hpage as (Hshape & Hres & p & Hpag & Hnext);
    simpl; rewrite (bind_ok _ _ _ _ _ Hcall), Hshape;
    unfold bind, lift; rewrite Hres; simpl; rewrite Hpag, Hnext; simpl.
  - by rewrite app_nil_r.
  - rewrite bool_decide_eq_false_2 by done. simpl.
    rewrite IH by lia. by rewrite <- app_assoc.
Qed.

(** A response of another shape ends the loop and is the result. *)
Lemma paginate_other rq w response w' fuel acc :
  call rq w = (Ok response, w') →
  dict_has "results" response && dict_has "pagination" response = false →
  Consolidation.paginate call (S fuel) rq acc w = (Ok response, w').
Proof.
  intros Hcall Hshape. simpl.
  by rewrite (bind_ok _ _ _ _ _ Hcall), Hshape.
Qed.

End pagination.

(** C4. When the request and the links after it are answered by pages of the
    shape [{results, pagination: {next}}], the last with [next = null],
    [get] returns the result lists of all pages put end to end in the order
    received, and does so within as many turns of the loop as there are
    pages.  When the first response is not of that shape, [get] returns it
    unchanged. *)
Theorem get_aggregates_pages :
  ∀ {W} (call : Request → M W value) endpoint id_ query_params,
    (∀ w pages w' fuel,
       Consolidation.paged call
         {| req_method := GET; req_target := Endpoint endpoint id_;
            req_params := query_params; req_json := None;
            req_files := None |} w pages w' →
       (length pages ≤ fuel)%nat →
       Consolidation.get call fuel endpoint id_ query_params w
       = (Ok (VList (concat pages)), w'))
    ∧ (∀ w response w' fuel,
         call {| req_method := GET; req_target := Endpoint endpoint id_;
                 req_params := query_params; req_json := None;
                 req_files := None |} w = (Ok response, w') →
         dict_has "results" response && dict_has "pagination" response
           = false →
         Consolidation.get call (S fuel) endpoint id_ query_params w
         = (Ok response, w')).
Proof.
  intros W call endpoint id_ query_params. split.
  - intros w pages w' fuel Hpaged Hfuel. unfold Consolidation.get.
    by rewrite (paginate_paged call _ _ _ _ Hpaged fuel []).
  - intros w response w' fuel Hcall Hshape.
    by apply paginate_other.
Qed.

(** Three pages of ten results are aggregated to thirty, in order. *)
Lemma get_aggregates_pages_witness :
  Consolidation.get example_paged_call 3 "items" None [] tt
  = (Ok (VList (concat [VInt <$> seqZ 1 10; VInt <$> seqZ 11 10;
                        VInt <$> seqZ 21 10])), tt)
  ∧ Consolidation.get example_paged_call 1 "items/7" None [] tt
    = (Ok (VDict [("id", VInt 7)]), tt).
Proof.
  split.
  - apply (proj1 (get_aggregates_pages example_paged_call "items" None [])).
    + eapply Consolidation.paged_next.
      { reflexivity. } { by eexists _, _. } { done. }
      eapply Consolidation.paged_next.
      { reflexivity. } { by eexists _, _. } { done. }
      eapply Consolidation.paged_last.
      { reflexivity. } { by eexists _, _. }
    + simpl. lia.
  - apply (proj2 (get_aggregates_pages example_paged_call "items/7" None []));
      reflexivity.
Defined.

(** ** The page assembler *)

Lemma lift_inv {W A} (o : outcome A) (w : W) a w' :
  lift o w = (Ok a, w') → o = Ok a ∧ w' = w.
Proof. unfold lift. by intros [= -> ->]. Qed.

Lemma ret_inv {W A} (x : A) (w : W) a w' :
  ret x w = (Ok a, w') → a = x ∧ w' = w.
Proof. unfold ret. by intros [= -> ->]. Qed.

Ltac inv_bind H :=
  repeat match type of H with
  | bind _ _ _ = (Ok _, _) =>
      let a := fresh "a" in let w := fresh "w" in
      let H1 := fresh "H" in
      apply bind_inv_ok in H as (a & w & H1 & H);
      try (apply lift_inv in H1 as [H1 ->])
  end.

Section map_M_props.
Context {W A B : Type}.
Variable f : A → M W B.



Lemma map_M_app_raise l1 x l2 w ys w1 e w2 :
  map_M f l1 w = (Ok ys, w1) →
  f x w1 = (Raise e, w2) →
  map_M f (l1 ++ x :: l2) w = (Raise e, w2).
Proof.
  revert w ys. induction l1 as [|y l1 IH]; intros w ys H Hx; simpl in *.
  - apply ret_inv in H as [_ ->]. by rewrite (bind_raise _ _ _ _ _ Hx).
  - inv_bind H. apply ret_inv in H as [_ ->].
    rewrite (bind_ok _ _ _ _ _ H0).
    by rewrite (bind_raise _ _ _ _ _ (IH _ _ H1 Hx)).
Qed.
End map_M_props.

Lemma py_len_iter v n :
  py_len v = Ok n → ∃ l, py_iter v = Ok l ∧ n = Z.of_nat (length l).
Proof.
  destruct v; simpl; intros [= <-]; eexists; (split; [done|]);
    rewrite ?length_fmap; try done.
  f_equal. induction s as [|c s IH]; simpl; by f_equal.
Qed.


Section assembler.
Context {W : Type}.
Variable call : Request → M W value.

Lemma declared_pages_eq annotation pages urls :
  py_item annotation "pages" = Ok pages → py_iter pages = Ok urls →
  declared_pages annotation = urls.
Proof. unfold declared_pages. by intros -> ->. Qed.

(** The check of line 197, consolidation hook. *)
Lemma fetch_annotation_check fuel annotation pages n w ocr w1 :
  py_item annotation "pages" = Ok pages →
  py_len pages = Ok n →
  map_M (Consolidation.fetch_chunk call fuel annotation)
        (chunked_ranges n default_chunk_size) w = (Ok ocr, w1) →
  Consolidation.fetch_annotation call fuel annotation w
  = if bool_decide (n = Z.of_nat (length (concat ocr)))
    then (Ok (declared_pages annotation, concat ocr), w1)
    else (Raise AssertionError, w1).
Proof.
  intros Hp Hn Hocr. destruct (py_len_iter _ _ Hn) as (urls & Hit & ->).
  unfold Consolidation.fetch_annotation, bind, lift.
  rewrite Hp, Hn, Hit, Hocr. rewrite (declared_pages_eq _ _ _ Hp Hit).
  by case_bool_decide.
Qed.


(** The check of line 113, searchable-PDF hook. *)
Lemma build_page_data_list_check annotation pages n w ocr w1 :
  py_item annotation "pages" = Ok pages →
  py_len pages = Ok n →
  map_M (SearchablePdf.fetch_chunk call annotation)
        (chunked_ranges n default_chunk_size) w = (Ok ocr, w1) →
  SearchablePdf.build_page_data_list call annotation w
  = if bool_decide (n = Z.of_nat (length (concat ocr)))
    then map_M (SearchablePdf.fetch_page call (concat ocr))
           (zip (seq 0 (length (declared_pages annotation)))
                (declared_pages annotation)) w1
    else (Raise AssertionError, w1).
Proof.
  intros Hp Hn Hocr. destruct (py_len_iter _ _ Hn) as (urls & Hit & ->).
  unfold SearchablePdf.build_page_data_list, bind, lift.
  rewrite Hp, Hn, Hocr. rewrite (declared_pages_eq _ _ _ Hp Hit).
  case_bool_decide; [|done]. by rewrite Hit.
Qed.
End assembler.

(** C5. Once the OCR pages of all chunks of a document are retrieved, a
    count different from the number of declared pages makes the assembler
    raise [AssertionError], which ends the assembly of the whole list; with
    equal counts the check passes and every declared page is kept. *)
Theorem page_count_mismatch_raises :
  ∀ {W} (call : Request → M W value) annotation pages n w,
    py_item annotation "pages" = Ok pages →
    py_len pages = Ok n →
    (∀ fuel ocr w1,
       map_M (Consolidation.fetch_chunk call fuel annotation)
             (chunked_ranges n default_chunk_size) w = (Ok ocr, w1) →
       (Z.of_nat (length (concat ocr)) ≠ n →
        Consolidation.fetch_annotation call fuel annotation w
        = (Raise AssertionError, w1)
        ∧ ∀ before fetched w0 after,
            map_M (Consolidation.fetch_annotation call fuel) before w0
            = (Ok fetched, w) →
            Consolidation.build_page_data_list call fuel
              (before ++ annotation :: after) w0
            = (Raise AssertionError, w1))
       ∧ (Z.of_nat (length (concat ocr)) = n →
          Consolidation.fetch_annotation call fuel annotation w
          = (Ok (declared_pages annotation, concat ocr), w1)))
    ∧ (∀ ocr w1,
         map_M (SearchablePdf.fetch_chunk call annotation)
               (chunked_ranges n default_chunk_size) w = (Ok ocr, w1) →
         (Z.of_nat (length (concat ocr)) ≠ n →
          SearchablePdf.build_page_data_list call annotation w
          = (Raise AssertionError, w1))
         ∧ (Z.of_nat (length (concat ocr)) = n →
            SearchablePdf.build_page_data_list call annotation w
            = map_M (SearchablePdf.fetch_page call (concat ocr))
                (zip (seq 0 (length (declared_pages annotation)))
                     (declared_pages annotation)) w1)).
Proof.
  intros W call annotation pages n w Hp Hn. split.
  - intros fuel ocr w1 Hocr.
    pose proof (fetch_annotation_check call fuel _ _ _ _ _ _ Hp Hn Hocr) as H.
    split; intros Hlen.
    + rewrite bool_decide_eq_false_2 in H by done. split; [done|].
      intros before fetched w0 after Hbefore.
      unfold Consolidation.build_page_data_list.
      by rewrite (bind_raise _ _ _ _ _
                    (map_M_app_raise _ _ _ after _ _ _ _ _ Hbefore H)).
    + by rewrite bool_decide_eq_true_2 in H.
  - intros ocr w1 Hocr.
    pose proof (build_page_data_list_check call _ _ _ _ _ _ Hp Hn Hocr) as H.
    split; intros Hlen.
    + by rewrite bool_decide_eq_false_2 in H.
    + by rewrite bool_decide_eq_true_2 in H.
Qed.

Lemma page_count_mismatch_raises_witness :
  Consolidation.build_page_data_list (example_pages_call [example_ocr_page "a"])
    1 ([] ++ example_annotation :: []) tt
  = (Raise AssertionError, tt)
  ∧ SearchablePdf.build_page_data_list
      (example_pages_call [example_ocr_page "a"]) example_annotation tt
    = (Raise AssertionError, tt).
Proof.
  destruct (page_count_mismatch_raises
              (example_pages_call [example_ocr_page "a"]) example_annotation
              (VList [VStr "https://x.test/api/v1/pages/51";
                      VStr "https://x.test/api/v1/pages/52"]) 2 tt
              eq_refl eq_refl) as [Hc Hs].
  split.
  - destruct (Hc 1%nat [[VList [VDict [("text", VStr "a");
                  ("position", VList [VInt 10; VInt 20; VInt 60; VInt 40])]]]]
                tt eq_refl) as [Hne _].
    apply (proj2 (Hne ltac:(simpl; lia)) [] [] tt []). reflexivity.
  - destruct (Hs [[VList [VDict [("text", VStr "a");
                  ("position", VList [VInt 10; VInt 20; VInt 60; VInt 40])]]]]
                tt eq_refl) as [Hne _].
    apply Hne. simpl. lia.
Defined.

Section assembler_order.
Context {W : Type}.
Variable call : Request → M W value.


End assembler_order.

Section assembler_result.
Context {W : Type}.
Variable call : Request → M W value.





End assembler_result.



(** ** Strings *)

Lemma append_assoc (a b c : string) : (a +:+ b) +:+ c = a +:+ (b +:+ c).
Proof. induction a as [|x a IH]; [done|]. exact (f_equal (String x) IH). Qed.

Lemma py_split_nonempty sep s : py_split sep s ≠ [].
Proof.
  destruct s as [|c s]; simpl; [done|].
  case_bool_decide; [done|]. by destruct (py_split sep s).
Qed.

Lemma py_split_app sep s1 s2 :
  py_split sep (s1 +:+ String sep s2) = py_split sep s1 ++ py_split sep s2.
Proof.
  induction s1 as [|c s1 IH].
  - change ("" +:+ String sep s2) with (String sep s2). simpl.
    by rewrite bool_decide_eq_true_2.
  - change (String c s1 +:+ String sep s2) with (String c (s1 +:+ String sep s2)).
    simpl. rewrite IH. case_bool_decide; [done|].
    pose proof (py_split_nonempty sep s1).
    by destruct (py_split sep s1).
Qed.

Lemma last_app_nonempty {A} (l1 l2 : list A) d :
  l2 ≠ [] → List.last (l1 ++ l2) d = List.last l2 d.
Proof.
  intros Hl2. induction l1 as [|x l1 IH]; [done|]. simpl.
  rewrite IH. destruct (l1 ++ l2) eqn:E; [|done].
  by apply app_eq_nil in E as [_ ->].
Qed.

Lemma last_segment_app p s :
  last_segment (p +:+ String "/" s) = last_segment s.
Proof.
  unfold last_segment. rewrite py_split_app.
  apply last_app_nonempty, py_split_nonempty.
Qed.


Lemma no_slash_cons c s :
  c ≠ "/"%char → no_slash s → no_slash (String c s).
Proof.
  unfold no_slash. intros Hc Hs. simpl.
  by rewrite bool_decide_eq_false_2, Hs.
Qed.

Lemma pretty_N_char_no_slash x : pretty_N_char x ≠ "/"%char.
Proof. unfold pretty_N_char. by repeat case_match. Qed.

Lemma pretty_N_go_no_slash x s : no_slash s → no_slash (pretty_N_go x s).
Proof.
  revert s. induction (N.lt_wf_0 x) as [x _ IH]; intros s Hs.
  assert (x = 0 ∨ 0 < x)%N as [->|?] by lia.
  - by rewrite pretty_N_go_0.
  - rewrite pretty_N_go_step by done. apply IH.
    { by apply N.div_lt. }
    apply no_slash_cons; [apply pretty_N_char_no_slash|done].
Qed.

Lemma pretty_N_no_slash (x : N) : no_slash (pretty x).
Proof.
  unfold pretty, pretty_N. case_decide; [done|].
  by apply pretty_N_go_no_slash.
Qed.

Lemma py_str_int_no_slash (n : Z) : no_slash (py_str_int n).
Proof.
  unfold py_str_int, pretty, pretty_Z. destruct n as [|p|p]; [done|..].
  - apply pretty_N_no_slash.
  - apply no_slash_cons; [done|]. apply pretty_N_no_slash.
Qed.

Lemma last_segment_no_slash s : no_slash s → last_segment s = s.
Proof. unfold no_slash, last_segment. by intros ->. Qed.


Lemma last_segment_document_url s k :
  last_segment (document_url s k) = py_str_int k.
Proof.
  unfold document_url.
  change (st_api_url s +:+ "documents/" +:+ py_str_int k)
    with (st_api_url s +:+ ("documents" +:+ String "/" (py_str_int k))).
  rewrite <- append_assoc, last_segment_app.
  apply last_segment_no_slash, py_str_int_no_slash.
Qed.


Lemma delete_target_document_url s k :
  url_of_target (st_api_url s)
    (Path "documents" (VStr (last_segment (document_url s k))))
  = Ok (document_url s k).
Proof. by rewrite last_segment_document_url. Qed.

(** ** The service *)

Lemma http_logged rq w :
  http rq w = ((serve rq (store w)).1, logged w rq (serve rq (store w)).2).
Proof. unfold http. by destruct (serve rq (store w)). Qed.

Lemma serve_upload filename pdf s :
  serve (upload_request filename pdf) s
  = (Ok (VDict [("id", VInt (st_next_document s));
                ("url", VStr (document_url s (st_next_document s)))]),
     upload_store s).
Proof. reflexivity. Qed.

Lemma serve_list key a s :
  serve (list_request key a) s
  = (Ok (list_response (relation_json <$> relations_for key a s)), s).
Proof. reflexivity. Qed.







Lemma lift_ok {W A} (o : outcome A) (w : W) a : o = Ok a → lift o w = (Ok a, w).
Proof. by intros ->. Qed.

Ltac run H := etrans; [eapply bind_ok; exact H|]; cbv beta.
Ltac run_lift H := etrans; [eapply bind_ok, lift_ok; exact H|]; cbv beta.









(** ** The searchable-PDF reconciler *)





Lemma searchable_find key a w :
  SearchablePdf.find_document_relation http key (VInt a) w
  = (Ok match relations_for key a (store w) with
        | r0 :: _ => VInt (rel_id r0)
        | [] => VNone
        end,
     logged w (list_request key a) (store w)).
Proof.
  unfold SearchablePdf.find_document_relation. fold (list_request key a).
  run (eq_trans (http_logged (list_request key a) w)
         (f_equal2 pair (f_equal fst (serve_list key a (store w)))
            (f_equal (logged w (list_request key a))
               (f_equal snd (serve_list key a (store w)))))).
  simpl. by destruct (relations_for key a (store w)).
Qed.




Lemma searchable_create key aurl new w :
  let r := new_relation (store w) "export" key aurl [new] in
  SearchablePdf.create_document_relation http key (VStr aurl) (VStr new) w
  = (Ok (rel_url r),
     logged w (sdk_create_request key aurl new) (create_store r (store w))).
Proof. reflexivity. Qed.








(** ** Reconciliation *)


Lemma methods_app h1 h2 : methods (h1 ++ h2) = methods h1 ++ methods h2.
Proof. unfold methods. by rewrite fmap_app. Qed.
















(** ** The worked examples are well-formed *)








(** ** More on the overlay renderer *)



Section render_more.

Variable stringWidth : string → string → Qc → Qc.
Variables (font_name : string).
Variables (base_font_size vertical_adjustment_factor : Qc).

Abbreviation overlay_item' :=
  (overlay_item stringWidth font_name base_font_size
     vertical_adjustment_factor).
Abbreviation overlay_page' :=
  (overlay_page stringWidth font_name base_font_size
     vertical_adjustment_factor).

(** Whatever an item does, it only appends item-level calls. *)
Lemma overlay_item_appends height item cv o cv' :
  overlay_item' height item cv = (o, cv') →
  ∃ ops, cv' = cv ++ ops ∧ Forall item_op ops.
Proof.
  unfold overlay_item, bind, lift, emit, ret, raise.
  destruct (py_item item "position") as [position| |];
    [|intros [= _ <-]; exists []; by rewrite app_nil_r..].
  destruct (unpack4 position) as [[[[x0 y0] x1] y1]| |];
    [|intros [= _ <-]; exists []; by rewrite app_nil_r..].
  destruct (py_item item "text") as [text| |];
    [|intros [= _ <-]; exists []; by rewrite app_nil_r..].
  destruct text as [| | | |text| | |];
    try (intros [= _ <-]; exists []; by rewrite app_nil_r).
  destruct (negb (truthy (VStr (py_strip text))));
    [intros [= _ <-]; exists []; by rewrite app_nil_r|].
  destruct (py_sub x1 x0) as [bw| |];
    [|intros [= _ <-]; exists []; by rewrite app_nil_r..].
  destruct (py_sub y1 y0) as [bh| |];
    [|intros [= _ <-]; exists []; by rewrite app_nil_r..].
  destruct (x_scale_of bw _) as [xs| |];
    [|intros [= _ <-]; eexists [_]; split; [done|by repeat constructor]..].
  destruct (py_truediv bh base_font_size) as [ys| |];
    [|intros [= _ <-]; eexists [_]; split; [done|by repeat constructor]..].
  destruct (py_sub height y1) as [yb| |];
    [|intros [= _ <-]; eexists [_]; split; [done|by repeat constructor]..].
  destruct (py_num x0) as [tx| |];
    [|intros [= _ <-]; eexists [_; _]; split;
       [by rewrite <- !app_assoc|by repeat constructor]..].
  intros [= _ <-]. eexists [_; _; _; _; _; _]. split;
    [by rewrite <- !app_assoc|by repeat constructor].
Qed.

Lemma for_each_items_appends height items cv o cv' :
  for_each items (overlay_item' height) cv = (o, cv') →
  ∃ ops, cv' = cv ++ ops ∧ Forall item_op ops.
Proof.
  revert cv. induction items as [|item items IH]; intros cv; simpl.
  - intros [= _ <-]. exists []. by rewrite app_nil_r.
  - unfold bind.
    destruct (overlay_item' height item cv) as [[[]| |] cv1] eqn:Hitem;
      apply overlay_item_appends in Hitem as (ops1 & -> & Hops1).
    + intros (ops2 & -> & Hops2)%IH. exists (ops1 ++ ops2).
      split; [by rewrite app_assoc|by apply Forall_app].
    + intros [= _ <-]. eauto.
    + intros [= _ <-]. eauto.
Qed.

Lemma page_sizes_item_ops ops : Forall item_op ops → page_sizes ops = [].
Proof.
  unfold page_sizes. induction 1 as [|op ops Hop _ IH]; [done|].
  by destruct op.
Qed.

Lemma images_item_ops ops : Forall item_op ops → images ops = [].
Proof.
  unfold images. induction 1 as [|op ops Hop _ IH]; [done|].
  by destruct op.
Qed.

Lemma shown_pages_item_ops ops : Forall item_op ops → shown_pages ops = 0%nat.
Proof.
  unfold shown_pages. induction 1 as [|op ops Hop _ IH]; [done|].
  by destruct op.
Qed.

Lemma page_sizes_app c1 c2 : page_sizes (c1 ++ c2) = page_sizes c1 ++ page_sizes c2.
Proof. apply omap_app. Qed.

Lemma images_app c1 c2 : images (c1 ++ c2) = images c1 ++ images c2.
Proof. apply omap_app. Qed.

Lemma shown_pages_app c1 c2 :
  shown_pages (c1 ++ c2) = (shown_pages c1 + shown_pages c2)%nat.
Proof. unfold shown_pages. by rewrite omap_app, length_app. Qed.

(** A finished page: its size, its image, item-level calls, [showPage]. *)
Lemma overlay_page_ok page cv cv' :
  overlay_page' page cv = (Ok tt, cv') →
  ∃ ops, cv' = cv ++ [SetPageSize (size page);
                      DrawImage (content page) 0 0 (size page).1 (size page).2;
                      SetFillColorRGB 0 0 0; SetFillAlpha 0]
                  ++ ops ++ [ShowPage]
         ∧ Forall item_op ops.
Proof.
  unfold overlay_page. destruct (size page) as [width height] eqn:Hsize.
  unfold bind at 1. unfold emit at 1. unfold bind at 1. unfold emit at 1.
  unfold bind at 1. unfold emit at 1. unfold bind at 1. unfold emit at 1.
  unfold bind at 1. unfold lift at 1.
  destruct (py_iter (ocr_data page)) as [items| |]; [|done..].
  unfold bind at 1.
  destruct (for_each items _ _) as [[[]| |] cv1] eqn:Hitems; [|done..].
  apply for_each_items_appends in Hitems as (ops & -> & Hops).
  unfold emit. intros [= <-]. exists ops. split; [|done].
  by rewrite <- !app_assoc.
Qed.

Lemma for_each_pages_ok pages cv cv' :
  for_each pages overlay_page' cv = (Ok tt, cv') →
  ∃ c, cv' = cv ++ c
       ∧ page_sizes c = size <$> pages
       ∧ images c = (λ p, (content p, (size p).1, (size p).2)) <$> pages
       ∧ shown_pages c = length pages.
Proof.
  revert cv. induction pages as [|page pages IH]; intros cv; simpl.
  - intros [= <-]. exists []. by rewrite app_nil_r.
  - unfold bind.
    destruct (overlay_page' page cv) as [[[]| |] cv1] eqn:Hpage; [|done..].
    apply overlay_page_ok in Hpage as (ops & -> & Hops).
    intros (c & -> & Hs & Hi & Hn)%IH.
    eexists. split; [by rewrite <- app_assoc|].
    rewrite !page_sizes_app, !images_app, !shown_pages_app, Hs, Hi, Hn.
    rewrite (page_sizes_item_ops _ Hops), (images_item_ops _ Hops),
      (shown_pages_item_ops _ Hops).
    done.
Qed.

End render_more.



(** X2. A PDF that is returned has one page per page record, in order: the
    page sizes set are the sizes of the records, the images drawn are their
    contents at their own width and height, as many pages are finished as
    there are records, and the last call saves the document. *)
Theorem create_ocr_overlay_pdf_pages :
  ∀ stringWidth font_name base_font_size vertical_adjustment_factor
    (pages : list PageData) (c : canvas),
    create_ocr_overlay_pdf stringWidth font_name base_font_size
      vertical_adjustment_factor pages = Ok c →
    page_sizes c = size <$> pages
    ∧ images c = (λ p, (content p, (size p).1, (size p).2)) <$> pages
    ∧ shown_pages c = length pages
    ∧ last c = Some Save.
Proof.
  intros sw fn bfs vaf pages c. unfold create_ocr_overlay_pdf, bind.
  destruct (for_each pages (overlay_page sw fn bfs vaf) [])
    as [[[]| |] cv] eqn:Hpages; [|done..].
  apply for_each_pages_ok in Hpages as (c0 & -> & Hs & Hi & Hn).
  unfold emit. intros [= <-]. simpl.
  rewrite page_sizes_app, images_app, shown_pages_app, Hs, Hi, Hn.
  rewrite last_snoc. simpl. rewrite !app_nil_r.
  by repeat split.
Qed.

Lemma create_ocr_overlay_pdf_pages_witness :
  ∃ c,
    create_ocr_overlay_pdf (λ _ _ _, Q2Qc 25) default_font_name
      default_base_font_size default_vertical_adjustment_factor
      [example_page_record; example_page_record] = Ok c
    ∧ shown_pages c = 2%nat
    ∧ last c = Some Save.
Proof.
  eexists. split; [reflexivity|].
  destruct (create_ocr_overlay_pdf_pages (λ _ _ _, Q2Qc 25) default_font_name
              default_base_font_size default_vertical_adjustment_factor
              [example_page_record; example_page_record] _ eq_refl)
    as (_ & _ & Hn & Hl).
  split; [exact Hn|exact Hl].
Defined.



(** X4. The box is unpacked before the text is looked at: an item without a
    ["position"] key raises [KeyError], and a position that does not have
    exactly four entries raises [ValueError], with nothing drawn, even when
    the text is blank or missing. *)
Theorem overlay_item_malformed_box :
  ∀ stringWidth font_name base_font_size vertical_adjustment_factor
    (height : value) (cv : canvas),
    (∀ d, assoc "position" d = None →
          overlay_item stringWidth font_name base_font_size
            vertical_adjustment_factor height (VDict d) cv
          = (Raise KeyError, cv))
    ∧ (∀ item position entries,
         py_item item "position" = Ok position →
         py_iter position = Ok entries →
         length entries ≠ 4%nat →
         overlay_item stringWidth font_name base_font_size
           vertical_adjustment_factor height item cv
         = (Raise ValueError, cv)).
Proof.
  intros sw fn bfs vaf height cv. split.
  - intros d Hd. unfold overlay_item, bind, lift. simpl. by rewrite Hd.
  - intros item position entries Hpos Hit Hlen.
    unfold overlay_item, bind, lift. rewrite Hpos. unfold unpack4.
    rewrite Hit. by destruct entries as [|?[|?[|?[|?[|??]]]]].
Qed.

Lemma overlay_item_malformed_box_witness :
  overlay_item (λ _ _ _, Q2Qc 25) default_font_name default_base_font_size
    default_vertical_adjustment_factor (VInt 200)
    (VDict [("text", VStr " ")]) []
  = (Raise KeyError, [])
  ∧ overlay_item (λ _ _ _, Q2Qc 25) default_font_name default_base_font_size
      default_vertical_adjustment_factor (VInt 200)
      (VDict [("position", VList [VInt 10; VInt 20; VInt 60]);
              ("text", VStr " ")]) []
    = (Raise ValueError, []).
Proof.
  destruct (overlay_item_malformed_box (λ _ _ _, Q2Qc 25) default_font_name
              default_base_font_size default_vertical_adjustment_factor
              (VInt 200) []) as [Hk Hv].
  split.
  - by apply Hk.
  - by apply (Hv _ (VList [VInt 10; VInt 20; VInt 60])
                [VInt 10; VInt 20; VInt 60]).
Defined.

(** ** The layout of the PDF *)

Section layout.

Variable stringWidth : string → string → Qc → Qc.
Variables (font_name : string).
Variables (base_font_size vertical_adjustment_factor : Qc).

Lemma for_each_pages_layout pages cv cv' :
  for_each pages
    (overlay_page stringWidth font_name base_font_size
       vertical_adjustment_factor) cv = (Ok tt, cv') →
  ∃ drawn, length drawn = length pages
           ∧ Forall (Forall item_op) drawn
           ∧ cv' = cv ++ concat (zip_with page_block pages drawn).
Proof.
  revert cv. induction pages as [|page pages IH]; intros cv; simpl.
  - intros [= <-]. exists []. by rewrite app_nil_r.
  - unfold bind.
    destruct (overlay_page _ _ _ _ page cv) as [[[]| |] cv1] eqn:Hpage;
      [|done..].
    apply overlay_page_ok in Hpage as (ops & -> & Hops).
    intros (drawn & Hlen & Hall & ->)%IH.
    exists (ops :: drawn). split; [by rewrite length_cons, Hlen|].
    split; [by constructor|].
    cbn [zip_with concat]. unfold page_block, page_header.
    rewrite <- !app_assoc. reflexivity.
Qed.

End layout.

(** X5. The layout of a PDF that is returned: for each page record, in
    order, the page size, the image over the whole page, black as fill
    colour and a fill alpha of zero, then nothing but the calls of the text
    items, then the end of the page; after the last page the document is
    saved.  So every text is drawn with a fill alpha of zero, and no call
    sets another alpha or colour. *)
Theorem create_ocr_overlay_pdf_layout :
  ∀ stringWidth font_name base_font_size vertical_adjustment_factor
    (pages : list PageData) (c : canvas),
    create_ocr_overlay_pdf stringWidth font_name base_font_size
      vertical_adjustment_factor pages = Ok c →
    ∃ drawn, length drawn = length pages
             ∧ Forall (Forall item_op) drawn
             ∧ c = concat (zip_with page_block pages drawn) ++ [Save].
Proof.
  intros sw fn bfs vaf pages c. unfold create_ocr_overlay_pdf, bind.
  destruct (for_each pages (overlay_page sw fn bfs vaf) [])
    as [[[]| |] cv] eqn:Hpages; [|done..].
  apply for_each_pages_layout in Hpages as (drawn & Hlen & Hall & ->).
  unfold emit. intros [= <-]. by exists drawn.
Qed.

Lemma create_ocr_overlay_pdf_layout_witness :
  ∃ c drawn,
    create_ocr_overlay_pdf example_stringWidth default_font_name
      default_base_font_size default_vertical_adjustment_factor
      [example_page_record] = Ok c
    ∧ length drawn = 1%nat
    ∧ Forall (Forall item_op) drawn
    ∧ c = concat (zip_with page_block [example_page_record] drawn) ++ [Save].
Proof.
  eexists.
  destruct (create_ocr_overlay_pdf_layout example_stringWidth
              default_font_name default_base_font_size
              default_vertical_adjustment_factor [example_page_record] _
              eq_refl) as (drawn & Hlen & Hall & Hc).
  exists drawn. split; [reflexivity|]. by split; [|split].
Defined.

(** ** More on the paginated fetch *)

Section pagination_more.

Context {W : Type}.
Variable call : Request → M W value.

(** Following linked pages only moves the loop on. *)
Lemma paginate_linked rq w pages rq' w' :
  linked call rq w pages rq' w' →
  ∀ fuel acc,
    Consolidation.paginate call (length pages + fuel) rq acc w
    = Consolidation.paginate call fuel rq' (acc ++ concat pages) w'.
Proof.
  induction 1 as [rq w|rq w response items u w1 rest rq' w' Hcall Hpage Hu _ IH];
    intros fuel acc.
  - simpl. by rewrite app_nil_r.
  - apply is_page_shape in Hpage as (Hshape & Hres & p & Hpag & Hnext).
    simpl. rewrite (bind_ok _ _ _ _ _ Hcall), Hshape.
    unfold bind, lift. rewrite Hres. simpl. rewrite Hpag, Hnext. simpl.
    rewrite bool_decide_eq_false_2 by done. simpl.
    rewrite IH. by rewrite <- app_assoc.
Qed.

Lemma paginate_raise rq w e w' fuel acc :
  call rq w = (Raise e, w') →
  Consolidation.paginate call (S fuel) rq acc w = (Raise e, w').
Proof. intros Hcall. simpl. by rewrite (bind_raise _ _ _ _ _ Hcall). Qed.

Lemma paginate_falsy_next rq w d p items w' fuel acc :
  call rq w = (Ok (VDict d), w') →
  assoc "results" d = Some (VList items) →
  assoc "pagination" d = Some (VDict p) →
  truthy (default VNone (assoc "next" p)) = false →
  Consolidation.paginate call (S fuel) rq acc w
  = (Ok (VList (acc ++ items)), w').
Proof.
  intros Hcall Hres Hpag Hnext. simpl.
  rewrite (bind_ok _ _ _ _ _ Hcall).
  assert (dict_has "results" (VDict d) && dict_has "pagination" (VDict d)
          = true) as ->.
  { unfold dict_has. by rewrite Hres, Hpag. }
  unfold bind, lift, py_get. rewrite Hres, Hpag. simpl. by rewrite Hnext.
Qed.

End pagination_more.

(** X6. Aggregation is all or nothing: when, after any number of linked
    pages, a response is not of the paginated shape, [get] returns that
    response alone and the results gathered so far are dropped. *)
Theorem get_drops_pages_on_other_shape :
  ∀ {W} (call : Request → M W value) endpoint id_ query_params
    w pages rq' w' response w2 fuel,
    linked call (get_request endpoint id_ query_params) w pages rq' w' →
    call rq' w' = (Ok response, w2) →
    dict_has "results" response && dict_has "pagination" response = false →
    Consolidation.get call (length pages + S fuel) endpoint id_ query_params w
    = (Ok response, w2).
Proof.
  intros W call endpoint id_ query_params w pages rq' w' response w2 fuel
    Hlinked Hcall Hshape.
  unfold Consolidation.get. fold (get_request endpoint id_ query_params).
  rewrite (paginate_linked call _ _ _ _ _ Hlinked).
  by apply paginate_other.
Qed.

Lemma get_drops_pages_on_other_shape_witness :
  Consolidation.get (example_second_call (Ok (VDict [("detail", VStr "x")])))
    (length [VInt <$> seqZ 1 10] + 1) "items" None [] tt
  = (Ok (VDict [("detail", VStr "x")]), tt).
Proof.
  eapply (get_drops_pages_on_other_shape
            (example_second_call (Ok (VDict [("detail", VStr "x")])))
            "items" None [] tt [VInt <$> seqZ 1 10]).
  - eapply linked_cons.
    { reflexivity. } { by eexists _, _. } { done. }
    apply linked_nil.
  - reflexivity.
  - reflexivity.
Defined.

(** X7. A failed request ends [get] with its exception, on the first page
    as on any later one: nothing of what was gathered is returned. *)
Theorem get_propagates_http_error :
  ∀ {W} (call : Request → M W value) endpoint id_ query_params
    w pages rq' w' e w2 fuel,
    linked call (get_request endpoint id_ query_params) w pages rq' w' →
    call rq' w' = (Raise e, w2) →
    Consolidation.get call (length pages + S fuel) endpoint id_ query_params w
    = (Raise e, w2).
Proof.
  intros W call endpoint id_ query_params w pages rq' w' e w2 fuel
    Hlinked Hcall.
  unfold Consolidation.get. fold (get_request endpoint id_ query_params).
  rewrite (paginate_linked call _ _ _ _ _ Hlinked).
  by apply paginate_raise.
Qed.

Lemma get_propagates_http_error_witness :
  Consolidation.get (example_second_call (Raise (HTTPError 500)))
    (length [VInt <$> seqZ 1 10] + 1) "items" None [] tt
  = (Raise (HTTPError 500), tt).
Proof.
  eapply (get_propagates_http_error
            (example_second_call (Raise (HTTPError 500)))
            "items" None [] tt [VInt <$> seqZ 1 10]).
  - eapply linked_cons.
    { reflexivity. } { by eexists _, _. } { done. }
    apply linked_nil.
  - reflexivity.
Defined.

(** X8. The loop ends on any [next] that tests false, not on [null] alone:
    a page whose pagination has no [next] key, or whose [next] is the empty
    string, is the last one and the results of all pages are returned. *)
Theorem get_ends_on_falsy_next :
  ∀ {W} (call : Request → M W value) endpoint id_ query_params
    w pages rq' w' d p items w2 fuel,
    linked call (get_request endpoint id_ query_params) w pages rq' w' →
    call rq' w' = (Ok (VDict d), w2) →
    assoc "results" d = Some (VList items) →
    assoc "pagination" d = Some (VDict p) →
    truthy (default VNone (assoc "next" p)) = false →
    Consolidation.get call (length pages + S fuel) endpoint id_ query_params w
    = (Ok (VList (concat pages ++ items)), w2).
Proof.
  intros W call endpoint id_ query_params w pages rq' w' d p items w2 fuel
    Hlinked Hcall Hres Hpag Hnext.
  unfold Consolidation.get. fold (get_request endpoint id_ query_params).
  rewrite (paginate_linked call _ _ _ _ _ Hlinked).
  by apply (paginate_falsy_next call _ _ d p).
Qed.

Lemma get_ends_on_falsy_next_witness :
  Consolidation.get
    (example_second_call
       (Ok (VDict [("results", VList [VInt 11]); ("pagination", VDict [])])))
    (length [VInt <$> seqZ 1 10] + 1) "items" None [] tt
  = (Ok (VList (concat [VInt <$> seqZ 1 10] ++ [VInt 11])), tt)
  ∧ Consolidation.get
      (example_second_call
         (Ok (VDict [("results", VList [VInt 11]);
                     ("pagination", VDict [("next", VStr "")])])))
      (length [VInt <$> seqZ 1 10] + 1) "items" None [] tt
    = (Ok (VList (concat [VInt <$> seqZ 1 10] ++ [VInt 11])), tt).
Proof.
  split.
  - eapply (get_ends_on_falsy_next
              (example_second_call
                 (Ok (VDict [("results", VList [VInt 11]);
                             ("pagination", VDict [])])))
              "items" None [] tt [VInt <$> seqZ 1 10]).
    + eapply linked_cons.
      { reflexivity. } { by eexists _, _. } { done. }
      apply linked_nil.
    + reflexivity.
    + reflexivity.
    + reflexivity.
    + reflexivity.
  - eapply (get_ends_on_falsy_next
              (example_second_call
                 (Ok (VDict [("results", VList [VInt 11]);
                             ("pagination", VDict [("next", VStr "")])])))
              "items" None [] tt [VInt <$> seqZ 1 10]).
    + eapply linked_cons.
      { reflexivity. } { by eexists _, _. } { done. }
      apply linked_nil.
    + reflexivity.
    + reflexivity.
    + reflexivity.
    + reflexivity.
Defined.

(** X9. The loop has no guard against a cycle of links: against a service
    whose pages link to themselves, no number of turns lets [get] return. *)
Theorem get_never_returns_on_cycle :
  ∀ {W} (call : Request → M W value) page items u endpoint id_ query_params,
    (∀ rq w, call rq w = (Ok page, w)) →
    Consolidation.is_page page items (VStr u) →
    u ≠ "" →
    ∀ fuel w,
      Consolidation.get call fuel endpoint id_ query_params w = (OutOfFuel, w).
Proof.
  intros W call page items u endpoint id_ query_params Hcall Hpage Hu fuel w.
  unfold Consolidation.get.
  generalize (@nil value) as acc.
  generalize {| req_method := GET; req_target := Endpoint endpoint id_;
                req_params := query_params; req_json := None;
                req_files := None |} as rq.
  apply is_page_shape in Hpage as (Hshape & Hres & p & Hpag & Hnext).
  induction fuel as [|fuel IH]; intros rq acc; [done|].
  simpl. rewrite (bind_ok _ _ _ _ _ (Hcall rq w)), Hshape.
  unfold bind, lift. rewrite Hres. simpl. rewrite Hpag, Hnext. simpl.
  rewrite bool_decide_eq_false_2 by done. simpl. apply IH.
Qed.

Lemma get_never_returns_on_cycle_witness :
  Consolidation.get example_loop_call 1000 "items" None [] tt
  = (OutOfFuel, tt).
Proof.
  eapply (get_never_returns_on_cycle example_loop_call).
  - reflexivity.
  - by eexists _, _.
  - done.
Defined.

(** ** Traces *)

Section traces.

Context {W : Type}.
Variable call : Request → M W value.
Variable P : Request → Prop.



Lemma sends_ret {A} (a : A) : sends (W:=W) P (ret a).
Proof. intros σ. exists []. by rewrite app_nil_r. Qed.

Lemma sends_raise {A} e : sends (W:=W) (A:=A) P (raise e).
Proof. intros σ. exists []. by rewrite app_nil_r. Qed.

Lemma sends_lift {A} (o : outcome A) : sends (W:=W) P (lift o).
Proof. intros σ. exists []. by rewrite app_nil_r. Qed.

Lemma sends_bind {A B} (c : M (W * list Request) A) (k : A → M (W * list Request) B) :
  sends P c → (∀ x, sends P (k x)) → sends P (bind c k).
Proof.
  intros Hc Hk σ. unfold bind. destruct (Hc σ) as (g & Hg & HP).
  destruct (c σ) as [[x| |] σ1]; simpl in Hg; [|by exists g..].
  destruct (Hk x σ1) as (g' & Hg' & HP').
  exists (g ++ g'). rewrite Hg', Hg, app_assoc. split; [done|].
  by apply Forall_app.
Qed.

Lemma sends_traced rq : P rq → sends P (traced call rq).
Proof.
  intros HP σ. exists [rq]. unfold traced.
  destruct (call rq σ.1) as [o w']. split; [done|]. by apply Forall_singleton.
Qed.

Lemma sends_for_each {A} (body : A → M (W * list Request) unit) l :
  (∀ x, sends P (body x)) → sends P (for_each l body).
Proof.
  intros Hb. induction l as [|x l IH]; [apply sends_ret|].
  simpl. apply sends_bind; [apply Hb|done].
Qed.

Lemma sends_map_M {A B} (f : A → M (W * list Request) B) l :
  (∀ x, sends P (f x)) → sends P (map_M f l).
Proof.
  intros Hf. induction l as [|x l IH]; [apply sends_ret|].
  simpl. apply sends_bind; [apply Hf|]. intros y.
  apply sends_bind; [done|]. intros ys. apply sends_ret.
Qed.

Lemma sends_fold_M {A B} (f : B → A → M (W * list Request) B) l b :
  (∀ b x, sends P (f b x)) → sends P (fold_M f l b).
Proof.
  intros Hf. revert b. induction l as [|x l IH]; intros b; [apply sends_ret|].
  simpl. apply sends_bind; [apply Hf|]. intros b'. apply IH.
Qed.

Hypothesis P_next : ∀ rq u, P rq → P (next_request rq u).

Lemma sends_paginate fuel rq results :
  P rq → sends P (Consolidation.paginate (traced call) fuel rq results).
Proof.
  revert rq results. induction fuel as [|fuel IH]; intros rq results Hrq.
  - intros σ. exists []. by rewrite app_nil_r.
  - simpl. apply sends_bind; [by apply sends_traced|]. intros response.
    destruct (dict_has "results" response && dict_has "pagination" response);
      [|apply sends_ret].
    repeat (apply sends_bind; [apply sends_lift|]; intros ?).
    destruct (truthy _); [|apply sends_ret].
    match goal with |- sends _ (match ?u with _ => _ end) => destruct u end;
      try apply sends_raise.
    apply IH. by apply P_next.
Qed.

End traces.

Lemma is_get_next rq u : is_get rq → is_get (next_request rq u).
Proof. done. Qed.

Lemma sends_mono {W A} (P Q : Request → Prop) (c : M (W * list Request) A) :
  (∀ rq, P rq → Q rq) → sends P c → sends Q c.
Proof.
  intros HPQ Hc σ. destruct (Hc σ) as (g & Hg & HP). exists g.
  split; [done|]. eapply Forall_impl; eauto.
Qed.

Ltac sends_step :=
  first
    [ apply sends_ret | apply sends_raise | apply sends_lift
    | apply sends_traced; done
    | apply sends_paginate; [by intros; apply is_get_next || done|done]
    | apply sends_bind; [|intros ?]
    | apply sends_map_M; intros ?
    | apply sends_fold_M; intros ? ?
    | apply sends_for_each; intros ?
    | match goal with
      | |- sends _ (if ?b then _ else _) => destruct b
      | |- sends _ (match ?x with _ => _ end) => destruct x
      | |- sends _ (let '(_, _) := ?x in _) => destruct x
      end ].

Ltac sends_all := repeat sends_step.

Section reads.

Context {W : Type}.
Variable call : Request → M W value.
Variable stringWidth : string → string → Qc → Qc.



Lemma reads_get fuel endpoint id_ query :
  sends is_get (Consolidation.get (traced call) fuel endpoint id_ query).
Proof. unfold Consolidation.get. sends_all. Qed.

Lemma reads_consolidation_pages fuel annotations :
  sends is_get
    (Consolidation.build_page_data_list (traced call) fuel annotations).
Proof.
  unfold Consolidation.build_page_data_list, Consolidation.fetch_annotation,
    Consolidation.fetch_chunk, Consolidation.fetch_page, Consolidation.get.
  sends_all.
Qed.

Lemma reads_searchable_pages annotation :
  sends is_get (SearchablePdf.build_page_data_list (traced call) annotation).
Proof.
  unfold SearchablePdf.build_page_data_list, SearchablePdf.fetch_chunk,
    SearchablePdf.fetch_page.
  sends_all.
Qed.

Lemma reads_add_relation fuel acc relation :
  sends is_get (ConsolidationHandler.add_relation (traced call) fuel acc relation).
Proof.
  unfold ConsolidationHandler.add_relation, ConsolidationHandler.add_related,
    Consolidation.get.
  sends_all.
Qed.

End reads.


(** ** More on the page assembler *)

Lemma chunked_ranges_length n c :
  0 < c → 0 ≤ n →
  length (chunked_ranges n c) = Z.to_nat ((n + c - 1) `div` c).
Proof.
  intros Hc Hn. unfold chunked_ranges. rewrite py_range_starts by done.
  by rewrite !length_fmap, length_seq.
Qed.

Lemma chunked_ranges_lookup n c (k : nat) ch :
  0 < c → 0 ≤ n →
  chunked_ranges n c !! k = Some ch →
  ch = seqZ (1 + Z.of_nat k * c)
         (Z.min (1 + Z.of_nat k * c + c) (n + 1) - (1 + Z.of_nat k * c)).
Proof.
  intros Hc Hn. unfold chunked_ranges. rewrite py_range_starts by done.
  rewrite !list_lookup_fmap. intros Hk.
  destruct (seq 0 _ !! k) as [j|] eqn:Hj; [|done].
  apply lookup_seq in Hj as [-> _]. simpl in Hk. injection Hk as <-.
  apply py_range_step1.
Qed.

(** X11. The OCR data of a document with [n] pages is asked for in
    [ceil(n / 20)] chunks; the k-th chunk starts at page [20 k + 1], and
    every chunk but the last holds exactly 20 page numbers. *)
Theorem chunked_ranges_count (n : nat) :
  length (chunked_ranges (Z.of_nat n) default_chunk_size)
  = Z.to_nat ((Z.of_nat n + 19) `div` 20)
  ∧ ∀ (k : nat) ch,
      chunked_ranges (Z.of_nat n) default_chunk_size !! k = Some ch →
      head ch = Some (20 * Z.of_nat k + 1)
      ∧ ((S k < length (chunked_ranges (Z.of_nat n) default_chunk_size))%nat →
         length ch = 20%nat).
Proof.
  assert (length (chunked_ranges (Z.of_nat n) default_chunk_size)
          = Z.to_nat ((Z.of_nat n + 19) `div` 20)) as Hlen.
  { rewrite chunked_ranges_length by (unfold default_chunk_size; lia).
    unfold default_chunk_size. do 2 f_equal. lia. }
  split; [done|]. intros k ch Hk.
  pose proof (lookup_lt_Some _ _ _ Hk) as Hlt. rewrite Hlen in Hlt.
  apply chunked_ranges_lookup in Hk; [|unfold default_chunk_size; lia..].
  unfold default_chunk_size in *.
  assert (0 ≤ (Z.of_nat n + 19) `div` 20) as Hq by (apply Z.div_pos; lia).
  assert (20 * Z.of_nat k < Z.of_nat n) as Hk20.
  { pose proof (Z.mul_div_le (Z.of_nat n + 19) 20). lia. }
  subst ch. split.
  - rewrite seqZ_cons by lia. simpl. f_equal. lia.
  - intros Hnext. rewrite Hlen in Hnext. rewrite length_seqZ.
    assert (20 * (Z.of_nat k + 1) < Z.of_nat n).
    { pose proof (Z.mul_div_le (Z.of_nat n + 19) 20). lia. }
    lia.
Qed.

Lemma chunked_ranges_count_witness :
  head [1; 2; 3; 4; 5; 6; 7; 8; 9; 10; 11; 12; 13; 14; 15; 16; 17; 18; 19; 20]
  = Some (20 * Z.of_nat 0 + 1)
  ∧ ((1 < length (chunked_ranges (Z.of_nat 45) default_chunk_size))%nat →
     length [1; 2; 3; 4; 5; 6; 7; 8; 9; 10; 11; 12; 13; 14; 15; 16; 17; 18;
             19; 20] = 20%nat).
Proof.
  exact (proj2 (chunked_ranges_count 45) 0%nat _ eq_refl).
Defined.

Section assembler_more.

Context {W : Type}.
Variable call : Request → M W value.

Lemma map_M_items (ds : list (list (string * value))) (w : W) :
  map_M (λ c, lift (py_get c "items" (VList []))) (VDict <$> ds) w
  = (Ok ((λ d, default (VList []) (assoc "items" d)) <$> ds), w).
Proof.
  induction ds as [|d ds IH]; [done|].
  rewrite !fmap_cons. simpl. unfold bind at 1. unfold lift at 1. simpl.
  unfold bind at 1. rewrite IH. done.
Qed.

Lemma consolidation_no_pages fuel annotation pages w :
  py_item annotation "pages" = Ok pages →
  py_len pages = Ok 0 →
  Consolidation.fetch_annotation call fuel annotation w = (Ok ([], []), w).
Proof.
  intros Hp Hn. destruct (py_len_iter _ _ Hn) as (urls & Hit & Hlen).
  destruct urls; [|done].
  unfold Consolidation.fetch_annotation, bind, lift.
  by rewrite Hp, Hn, Hit.
Qed.

End assembler_more.

(** X12. Documents without pages cost no request: the assembler returns the
    empty page list and leaves the world as it was, whatever the transport
    would have answered. *)
Theorem assemble_no_pages :
  ∀ {W} (call : Request → M W value),
    (∀ fuel annotations w,
       Forall (λ a, ∃ pages, py_item a "pages" = Ok pages
                             ∧ py_len pages = Ok 0) annotations →
       Consolidation.build_page_data_list call fuel annotations w
       = (Ok [], w))
    ∧ (∀ annotation pages w,
         py_item annotation "pages" = Ok pages →
         py_len pages = Ok 0 →
         SearchablePdf.build_page_data_list call annotation w = (Ok [], w)).
Proof.
  intros W call. split.
  - intros fuel annotations w Hall.
    assert (∃ fetched,
              map_M (Consolidation.fetch_annotation call fuel) annotations w
              = (Ok fetched, w)
              ∧ concat fetched.*1 = [] ∧ concat fetched.*2 = [])
      as (fetched & Hf & H1 & H2).
    { induction Hall as [|a l (pages & Hp & Hn) _ (fetched & IH & H1 & H2)].
      - by exists [].
      - exists (([], []) :: fetched). simpl. unfold bind.
        by rewrite (consolidation_no_pages call fuel a pages w Hp Hn), IH. }
    unfold Consolidation.build_page_data_list.
    rewrite (bind_ok _ _ _ _ _ Hf). by rewrite H1, H2.
  - intros annotation pages w Hp Hn.
    destruct (py_len_iter _ _ Hn) as (urls & Hit & Hlen).
    destruct urls; [|done].
    unfold SearchablePdf.build_page_data_list, bind, lift.
    by rewrite Hp, Hn, Hit.
Qed.

Lemma assemble_no_pages_witness :
  Consolidation.build_page_data_list (λ _ w, (Raise (HTTPError 500), S w)) 1
    [VDict [("pages", VList [])]; VDict [("pages", VList [])]] 0%nat
  = (Ok [], 0%nat)
  ∧ SearchablePdf.build_page_data_list (λ _ w, (Raise (HTTPError 500), S w))
      (VDict [("pages", VList [])]) 0%nat
    = (Ok [], 0%nat).
Proof.
  destruct (assemble_no_pages (W := nat) (λ _ w, (Raise (HTTPError 500), S w)))
    as [Hc Hs].
  split.
  - apply Hc. repeat constructor; by eexists.
  - by apply (Hs _ (VList [])).
Defined.

(** X13. The consolidation hook reads the OCR data through the paginating
    [get]: when the [page_data] answer has the paginated shape, [get] hands
    back a list and [.get("results")] on it raises [AttributeError].  An
    answer without [pagination] is read as the searchable-PDF hook reads any
    answer: every entry of [results] gives one page, an entry without
    [items] an empty one. *)
Theorem consolidation_page_data_paginated :
  ∀ {W} (call : Request → M W value) fuel annotation i chunk,
    py_item annotation "id" = Ok i →
    let rq := get_request "annotations/{id}/page_data" (Some i)
                [("page_numbers", VStr (py_join "," (py_str_int <$> chunk)));
                 ("granularity", VStr "lines")] in
    (∀ w pages w',
       Consolidation.paged call rq w pages w' →
       (length pages ≤ fuel)%nat →
       Consolidation.fetch_chunk call fuel annotation chunk w
       = (Raise AttributeError, w'))
    ∧ (∀ w d ds w',
         call rq w = (Ok (VDict d), w') →
         assoc "pagination" d = None →
         assoc "results" d = Some (VList (VDict <$> ds)) →
         Consolidation.fetch_chunk call (S fuel) annotation chunk w
         = (Ok ((λ d, default (VList []) (assoc "items" d)) <$> ds), w')).
Proof.
  intros W call fuel annotation i chunk Hid rq. split.
  - intros w pages w' Hpaged Hfuel.
    unfold Consolidation.fetch_chunk.
    rewrite (bind_ok _ _ _ _ _ (lift_ok _ w _ Hid)).
    pose proof (paginate_paged call _ _ _ _ Hpaged fuel [] Hfuel) as Hget.
    unfold Consolidation.get. fold rq.
    by rewrite (bind_ok _ _ _ _ _ Hget).
  - intros w d ds w' Hcall Hpag Hres.
    unfold Consolidation.fetch_chunk.
    rewrite (bind_ok _ _ _ _ _ (lift_ok _ w _ Hid)).
    assert (Consolidation.get call (S fuel) "annotations/{id}/page_data"
              (Some i)
              [("page_numbers", VStr (py_join "," (py_str_int <$> chunk)));
               ("granularity", VStr "lines")] w = (Ok (VDict d), w')) as Hget.
    { apply paginate_other; [exact Hcall|].
      unfold dict_has. rewrite Hpag. simpl. apply andb_false_r. }
    rewrite (bind_ok _ _ _ _ _ Hget).
    unfold bind at 1. unfold lift at 1. unfold py_get. rewrite Hres.
    unfold bind at 1. unfold lift at 1. simpl py_iter. cbv iota beta.
    apply map_M_items.
Qed.

Lemma consolidation_page_data_paginated_witness :
  Consolidation.fetch_chunk
    (example_paginated_pages_call [example_ocr_page "a"]) 1
    example_annotation [1; 2] tt
  = (Raise AttributeError, tt)
  ∧ Consolidation.fetch_chunk
      (example_pages_call [example_ocr_page "a"; VDict []]) 1
      example_annotation [1; 2] tt
    = (Ok ((λ d, default (VList []) (assoc "items" d))
             <$> [[("page_number", VInt 1);
                   ("items", VList [VDict [("text", VStr "a");
                                           ("position",
                                            VList [VInt 10; VInt 20;
                                                   VInt 60; VInt 40])]])];
                  []]), tt).
Proof.
  split.
  - eapply (proj1 (consolidation_page_data_paginated
                     (example_paginated_pages_call [example_ocr_page "a"])
                     1%nat example_annotation (VInt 5) [1; 2] eq_refl)
              tt [[example_ocr_page "a"]] tt).
    + eapply Consolidation.paged_last.
      { reflexivity. } { by eexists _, _. }
    + simpl. lia.
  - eapply (proj2 (consolidation_page_data_paginated
                     (example_pages_call [example_ocr_page "a"; VDict []])
                     0%nat example_annotation (VInt 5) [1; 2] eq_refl)
              tt _ _ tt); reflexivity.
Defined.

(** ** Exceptions of the assembler *)

Section raises.

Context {W : Type}.
Variable Q : exn → Prop.

Lemma raises_only_ret {A} (a : A) : raises_only (W:=W) Q (ret a).
Proof. by intros w e w'. Qed.

Lemma raises_only_raise {A} e : Q e → raises_only (W:=W) (A:=A) Q (raise e).
Proof. by intros He w e' w' [= <- _]. Qed.

Lemma raises_only_lift {A} (o : outcome A) :
  (∀ e, o = Raise e → Q e) → raises_only (W:=W) Q (lift o).
Proof. intros Ho w e w' [= -> _]. by apply Ho. Qed.

Lemma raises_only_bind {A B} (c : M W A) (k : A → M W B) :
  raises_only Q c → (∀ x, raises_only Q (k x)) → raises_only Q (bind c k).
Proof.
  intros Hc Hk w e w'. unfold bind.
  destruct (c w) as [[x| |] w1] eqn:Hcw; [apply Hk| |done].
  intros [= <- _]. by eapply Hc.
Qed.

Lemma raises_only_map_M {A B} (f : A → M W B) l :
  (∀ x, x ∈ l → raises_only Q (f x)) → raises_only Q (map_M f l).
Proof.
  induction l as [|x l IH]; intros Hf; [apply raises_only_ret|].
  simpl. apply raises_only_bind; [apply Hf, elem_of_cons; by left|].
  intros y. apply raises_only_bind; [|intros; apply raises_only_ret].
  apply IH. intros x' Hx'. apply Hf, elem_of_cons. by right.
Qed.

End raises.

Lemma py_item_raises v k e :
  py_item v k = Raise e → e = KeyError ∨ e = TypeError.
Proof.
  destruct v as [| | | | | | |d]; simpl; try (intros [= <-]; by right).
  destruct (assoc k d); [done|]. intros [= <-]. by left.
Qed.

Lemma py_get_raises v k d e : py_get v k d = Raise e → e = AttributeError.
Proof. destruct v; simpl; by intros [= <-]. Qed.

Lemma py_iter_raises v e : py_iter v = Raise e → e = TypeError.
Proof. destruct v; simpl; by intros [= <-]. Qed.

Lemma py_len_raises v e : py_len v = Raise e → e = TypeError.
Proof. destruct v; simpl; by intros [= <-]. Qed.

Lemma py_str_raises v e : py_str v = Raise e → e = TypeError.
Proof. destruct v as [| [] | | | | | |]; simpl; by intros [= <-]. Qed.

Ltac no_index :=
  repeat first
    [ apply raises_only_ret
    | apply raises_only_raise; done
    | apply raises_only_lift;
      first [ by intros ? [-> | ->]%py_item_raises
            | by intros ? ->%py_get_raises
            | by intros ? ->%py_iter_raises
            | by intros ? ->%py_len_raises
            | by intros ? ->%py_str_raises ]
    | apply raises_only_bind; [|intros ?]
    | apply raises_only_map_M; intros ? _
    | done ].

(** X14. The sanity check makes the indexing safe: when the transport never
    raises [IndexError], neither does the assembler of the searchable-PDF
    hook.  Every page has its OCR page at [ocr_data_pages[i]], because a
    run that gets there has as many OCR pages as page URLs. *)
Theorem searchable_assembler_index_safe :
  ∀ {W} (call : Request → M W value) annotation,
    (∀ rq, raises_only (λ e, e ≠ IndexError) (call rq)) →
    raises_only (λ e, e ≠ IndexError)
      (SearchablePdf.build_page_data_list call annotation).
Proof.
  intros W call annotation Hcall w e w'.
  unfold SearchablePdf.build_page_data_list.
  unfold bind at 1. unfold lift at 1.
  destruct (py_item annotation "pages") as [pages| |] eqn:Hpages;
    [|by intros [= <- _]; apply py_item_raises in Hpages as [-> | ->]|done].
  unfold bind at 1. unfold lift at 1.
  destruct (py_len pages) as [n| |] eqn:Hn;
    [|by intros [= <- _]; apply py_len_raises in Hn as ->|done].
  destruct (py_len_iter _ _ Hn) as (urls & Hurls & Hlen).
  revert w e w'. apply raises_only_bind.
  { unfold SearchablePdf.fetch_chunk. apply raises_only_map_M. intros chunk _.
    apply raises_only_bind; [no_index|]. intros url.
    destruct url; no_index; apply Hcall. }
  intros ocr. case_bool_decide as Hocr; [|no_index].
  intros w e w'. unfold bind at 1. unfold lift at 1.
  unfold bind at 1. unfold lift at 1. rewrite Hurls.
  revert w e w'. apply raises_only_map_M. intros [i url] Hin.
  apply elem_of_zip_l, elem_of_seq in Hin as [_ Hi]. simpl in Hi.
  unfold SearchablePdf.fetch_page.
  apply raises_only_bind; [no_index|]. intros u.
  apply raises_only_bind; [apply Hcall|]. intros content.
  destruct content, url; no_index; try apply Hcall.
  destruct (concat ocr !! i) eqn:Hlook; no_index.
  apply lookup_ge_None in Hlook. lia.
Qed.

Lemma searchable_assembler_index_safe_witness :
  raises_only (λ e, e ≠ IndexError)
    (SearchablePdf.build_page_data_list
       (example_pages_call [example_ocr_page "a"]) example_annotation).
Proof.
  apply (searchable_assembler_index_safe
           (example_pages_call [example_ocr_page "a"]) example_annotation).
  intros rq w e w'. unfold example_pages_call.
  destruct (req_target rq); repeat case_match; by intros [= <- _].
Defined.


(** ** More on the reconcilers *)











(** X18. The searchable-PDF hook tests the id it found for truth
    ([if existing_relation_id:]): a matching relation whose id is [0] counts
    as not found.  The hook then uploads and creates a second relation for
    the same key; the relation that matched and its documents stay as they
    were. *)
Theorem searchable_zero_id_not_found :
  ∀ w key annotation a aurl pdf r0 rest,
    py_item annotation "id" = Ok (VInt a) →
    py_item annotation "url" = Ok (VStr aurl) →
    relations_for key a (store w) = r0 :: rest →
    rel_id r0 = 0 →
    let s := store w in
    let new := document_url s (st_next_document s) in
    ∃ w' h,
      SearchablePdf.store_pdf http key annotation pdf w = (Ok messages, w')
      ∧ history w' = history w ++ h
      ∧ methods h = [GET; POST; POST]
      ∧ st_documents (store w') = st_documents s ++ [new]
      ∧ st_relations (store w')
        = st_relations s
          ++ [new_relation (upload_store s) "export" key aurl [new]].
Proof.
  intros w key annotation a aurl pdf r0 rest Hid Haurl Hrel Hz s new.
  eexists _, _. split.
  - unfold SearchablePdf.store_pdf.
    run_lift Hid. run (searchable_find key a w). rewrite Hrel, Hz.
    simpl truthy. cbv iota.
    unfold bind, lift. rewrite Hid, Haurl. reflexivity.
  - split; [unfold logged; simpl; rewrite <- !app_assoc; reflexivity|].
    by repeat split.
Qed.

Lemma searchable_zero_id_not_found_witness :
  ∃ w' h,
    SearchablePdf.store_pdf http "k" example_annotation []
      example_zero_id_world
    = (Ok messages, w')
    ∧ history w' = history example_zero_id_world ++ h
    ∧ methods h = [GET; POST; POST]
    ∧ st_documents (store w')
      = st_documents (store example_zero_id_world)
        ++ [document_url (store example_zero_id_world) 2]
    ∧ st_relations (store w')
      = st_relations (store example_zero_id_world)
        ++ [new_relation (upload_store (store example_zero_id_world))
              "export" "k" "https://x.test/api/v1/annotations/5"
              [document_url (store example_zero_id_world) 2]].
Proof.
  exact (searchable_zero_id_not_found example_zero_id_world "k"
           example_annotation 5 "https://x.test/api/v1/annotations/5" []
           _ [] eq_refl eq_refl eq_refl eq_refl).
Defined.

(** ** The handlers *)

Section handlers.

Context {W : Type}.
Variable call : Request → M W value.
Variable stringWidth : string → string → Qc → Qc.

(** One step of a run that has only read so far: either the step fails, and
    the run has only read, or it goes on. *)
Lemma reads_then {A B} (c : M (W * list Request) A)
    (k : A → M (W * list Request) B) l σ
    (Ψ : outcome B * (W * list Request) → Prop) :
  sends is_get c →
  (∃ gets, σ.2 = l ++ gets ∧ Forall is_get gets) →
  (∀ x σ1, c σ = (Ok x, σ1) →
           (∃ gets, σ1.2 = l ++ gets ∧ Forall is_get gets) →
           (∃ gets, (k x σ1).2.2 = l ++ gets ∧ Forall is_get gets)
           ∨ Ψ (k x σ1)) →
  (∃ gets, (bind c k σ).2.2 = l ++ gets ∧ Forall is_get gets)
  ∨ Ψ (bind c k σ).
Proof.
  intros Hc (gets & Hl & Hgets) Hk. unfold bind.
  destruct (Hc σ) as (g & Hg & HP).
  assert (∃ gets', (c σ).2.2 = l ++ gets' ∧ Forall is_get gets') as Hσ1.
  { exists (gets ++ g). rewrite Hg, Hl, app_assoc. split; [done|].
    by apply Forall_app. }
  destruct (c σ) as [[x| |] σ1] eqn:Hcσ; [by apply Hk|by left..].
Qed.

Lemma reads_only {A} (c : M (W * list Request) A) l σ :
  sends is_get c →
  (∃ gets, σ.2 = l ++ gets ∧ Forall is_get gets) →
  ∃ gets, (c σ).2.2 = l ++ gets ∧ Forall is_get gets.
Proof.
  intros Hc (gets & Hl & Hgets). destruct (Hc σ) as (g & Hg & HP).
  exists (gets ++ g). rewrite Hg, Hl, app_assoc. split; [done|].
  by apply Forall_app.
Qed.

End handlers.

Ltac reads_bind :=
  match goal with
  | |- _ ∨ ?Ψ _ => eapply (reads_then _ _ _ _ Ψ)
  end.

Ltac reads_lift x H :=
  reads_bind; [apply sends_lift|done|];
  intros x ? [= H <-] ?.

(** X19. Without an authorization token (absent, [null], empty) neither
    handler sends a request: the consolidation hook raises [ValueError], the
    searchable-PDF hook its [ConfigurationError] with the message
    ["Configuration Error: Missing token owner of extension"]. *)
Theorem handlers_refuse_missing_token :
  ∀ {W} (call : Request → M W value) stringWidth fuel payload token w,
    py_get payload "rossum_authorization_token" VNone = Ok token →
    truthy token = false →
    ConsolidationHandler.rossum_hook_request_handler call stringWidth fuel
      payload w
    = (Raise ValueError, w)
    ∧ SearchablePdfHandler.rossum_hook_request_handler call stringWidth
        payload w
      = (inl {| SearchablePdfHandler.error_message :=
                  "Configuration Error: Missing token owner of extension" |},
         w).
Proof.
  intros W call sw fuel payload token w Htoken Hfalsy. split.
  - unfold ConsolidationHandler.rossum_hook_request_handler, bind, lift.
    by rewrite Htoken, Hfalsy.
  - unfold SearchablePdfHandler.rossum_hook_request_handler,
      SearchablePdfHandler.get_rossum_client.
    by rewrite Htoken, Hfalsy.
Qed.

(** X20. The consolidation handler acts only on the event
    ["annotation_content"] with the action ["confirm"] or ["export"].  On
    any other payload it sends no request; it returns the empty message
    list when the annotation of the payload has a [status], and fails with
    [KeyError] when it has none, because the log line of the skipped case
    reads it. *)
Theorem consolidation_handler_skips :
  ∀ {W} (call : Request → M W value) stringWidth fuel payload token event
    annotation w,
    py_get payload "rossum_authorization_token" VNone = Ok token →
    truthy token = true →
    py_item payload "event" = Ok event →
    (py_eq_str event "annotation_content" = false
     ∨ ∃ action, py_item payload "action" = Ok action
                 ∧ py_eq_str action "confirm" = false
                 ∧ py_eq_str action "export" = false) →
    py_item payload "annotation" = Ok (VDict annotation) →
    ConsolidationHandler.rossum_hook_request_handler call stringWidth fuel
      payload w
    = (match assoc "status" annotation with
       | Some _ => Ok messages
       | None => Raise KeyError
       end, w).
Proof.
  intros W call sw fuel payload token event annotation w Htoken Htruthy
    Hevent Hskip Hann.
  unfold ConsolidationHandler.rossum_hook_request_handler, bind, lift.
  rewrite Htoken, Htruthy, Hevent. simpl negb. cbv iota.
  destruct Hskip as [Hne|(action & Haction & Hc & He)].
  - rewrite Hne. unfold ret. simpl negb. cbv iota.
    rewrite Hann. simpl. by destruct (assoc "status" annotation).
  - destruct (py_eq_str event "annotation_content").
    + rewrite Haction, Hc, He. unfold ret. simpl. rewrite Hann. simpl.
      by destruct (assoc "status" annotation).
    + unfold ret. simpl. rewrite Hann. simpl.
      by destruct (assoc "status" annotation).
Qed.

(** X21. The consolidation handler writes nothing before the PDF is
    rendered.  With well-formed settings, every run is of one of two kinds:
    either every request it sent is a GET (the handler skipped the payload,
    or failed while it collected the annotations, assembled the pages or
    rendered them), or the pages were assembled, the renderer returned a
    PDF, only GETs were sent up to there, and the rest of the run is the
    upload of that PDF and its reconciliation under the configured key. *)
Theorem consolidation_handler_reads_first :
  ∀ {W} (call : Request → M W value) stringWidth fuel payload key w l,
    py_item payload "settings"
    = Ok (VDict [("export_reference_key", VStr key)]) →
    let run :=
      ConsolidationHandler.rossum_hook_request_handler (traced call)
        stringWidth fuel payload (w, l) in
    (∃ gets, run.2.2 = l ++ gets ∧ Forall is_get gets)
    ∨ (∃ annotation annotations σ0 pages pdf σ gets,
         py_item payload "annotation" = Ok annotation
         ∧ Consolidation.build_page_data_list (traced call) fuel annotations σ0
           = (Ok pages, σ)
         ∧ create_ocr_overlay_pdf stringWidth default_font_name
             default_base_font_size default_vertical_adjustment_factor pages
           = Ok pdf
         ∧ σ.2 = l ++ gets ∧ Forall is_get gets
         ∧ run = (Consolidation.upload_and_relate (traced call) fuel pdf
                    annotation key ;;; ret messages) σ).
Proof.
  intros W call sw fuel payload key w l Hsettings run. subst run.
  set (Ψ := λ r : outcome value * (W * list Request),
         ∃ annotation annotations σ0 pages pdf σ gets,
           py_item payload "annotation" = Ok annotation
           ∧ Consolidation.build_page_data_list (traced call) fuel
               annotations σ0 = (Ok pages, σ)
           ∧ create_ocr_overlay_pdf sw default_font_name
               default_base_font_size default_vertical_adjustment_factor
               pages = Ok pdf
           ∧ σ.2 = l ++ gets ∧ Forall is_get gets
           ∧ r = (Consolidation.upload_and_relate (traced call) fuel pdf
                    annotation key ;;; ret messages) σ).
  change ((∃ gets,
             (ConsolidationHandler.rossum_hook_request_handler (traced call)
                sw fuel payload (w, l)).2.2 = l ++ gets
             ∧ Forall is_get gets)
          ∨ Ψ (ConsolidationHandler.rossum_hook_request_handler
                 (traced call) sw fuel payload (w, l))).
  unfold ConsolidationHandler.rossum_hook_request_handler.
  assert (∃ gets, (w, l).2 = l ++ gets ∧ Forall is_get gets) as Hstart.
  { exists []. by rewrite app_nil_r. }
  revert Hstart. generalize (w, l). intros σ Hσ.
  reads_lift token Htoken.
  destruct (negb (truthy token)); [left; by apply reads_only; [sends_all|]|].
  reads_lift event Hevent.
  reads_bind; [sends_all|done|]. intros proceed σ1 _ Hσ1.
  destruct (negb proceed); [left; by apply reads_only; [sends_all|]|].
  reads_lift base Hbase. reads_lift tok Htok. reads_lift kwargs Hkw.
  rewrite Hsettings in Hkw. injection Hkw as <-.
  reads_lift key' Hkey. simpl in Hkey. subst key'.
  reads_lift annotation Hann. reads_lift url Hurl.
  set (rest := λ annotations_to_process : list (value * value),
         (lift (py_item annotation "id") ;;;
          parent_id <- lift (py_item annotation "id") ;;
          relations <-
            Consolidation.get (traced call) fuel "relations" None
              [("parent", parent_id); ("type", VStr "attachment")] ;;
          relations <- lift (py_iter relations) ;;
          annotations_to_process <-
            fold_M (ConsolidationHandler.add_relation (traced call) fuel)
              relations annotations_to_process ;;
          page_data_list <-
            Consolidation.build_page_data_list (traced call) fuel
              (annotations_to_process.*2) ;;
          pdf_bytes <-
            lift (create_ocr_overlay_pdf sw default_font_name
                    default_base_font_size default_vertical_adjustment_factor
                    page_data_list) ;;
          Consolidation.upload_and_relate (traced call) fuel pdf_bytes annotation
            key ;;;
          ret messages) : M (W * list Request) value).
  assert (∀ acc,
            (∃ gets, (rest acc σ1).2.2 = l ++ gets ∧ Forall is_get gets)
            ∨ Ψ (rest acc σ1)) as Hrest.
  { intros acc. unfold rest.
    reads_lift id_ Hid. reads_lift parent_id Hpid.
    reads_bind; [apply reads_get|done|]. intros relations σ2 _ Hσ2.
    reads_bind; [apply sends_lift|done|]. intros rs ? [= Hrs <-] _.
    reads_bind;
      [apply sends_fold_M; intros; apply reads_add_relation|done|].
    intros todo σ3 _ Hσ3.
    reads_bind; [apply reads_consolidation_pages|done|].
    intros pages σ4 Hbuild Hσ4.
    reads_bind; [apply sends_lift|done|]. intros pdf ? [= Hpdf <-] _.
    right. destruct Hσ4 as (gets & Hl & Hgets).
    by exists annotation, (todo.*2), σ3, pages, pdf, σ4, gets. }
  destruct url; first [apply Hrest | left; by apply reads_only; [sends_all|]].
Qed.

(** X22. The searchable-PDF handler writes nothing before the PDF is
    rendered.  With well-formed settings, every run is of one of two kinds:
    either every request it sent is a GET (the client could not be built,
    or the assembly or the rendering failed), or the pages were assembled
    with GETs only, the renderer returned a PDF, and the rest of the run is
    the reconciliation of that PDF under the configured key. *)
Theorem searchable_handler_reads_first :
  ∀ {W} (call : Request → M W value) stringWidth payload key w l,
    py_item payload "settings"
    = Ok (VDict [("export_reference_key", VStr key)]) →
    let run :=
      SearchablePdfHandler.rossum_hook_request_handler (traced call)
        stringWidth payload (w, l) in
    (∃ gets, run.2.2 = l ++ gets ∧ Forall is_get gets)
    ∨ (∃ annotation pages pdf σ gets,
         py_item payload "annotation" = Ok annotation
         ∧ SearchablePdf.build_page_data_list (traced call) annotation (w, l)
           = (Ok pages, σ)
         ∧ create_ocr_overlay_pdf stringWidth default_font_name
             default_base_font_size default_vertical_adjustment_factor pages
           = Ok pdf
         ∧ σ.2 = l ++ gets ∧ Forall is_get gets
         ∧ run = (inr (SearchablePdf.store_pdf (traced call) key annotation
                         pdf σ).1,
                  (SearchablePdf.store_pdf (traced call) key annotation
                     pdf σ).2)).
Proof.
  intros W call sw payload key w l Hsettings run. subst run.
  assert (∃ gets, (w, l).2 = l ++ gets ∧ Forall is_get gets) as Hstart.
  { exists []. by rewrite app_nil_r. }
  set (Ψ := λ r : outcome value * (W * list Request),
         ∃ annotation pages pdf σ gets,
           py_item payload "annotation" = Ok annotation
           ∧ SearchablePdf.build_page_data_list (traced call) annotation
               (w, l) = (Ok pages, σ)
           ∧ create_ocr_overlay_pdf sw default_font_name
               default_base_font_size default_vertical_adjustment_factor
               pages = Ok pdf
           ∧ σ.2 = l ++ gets ∧ Forall is_get gets
           ∧ r = SearchablePdf.store_pdf (traced call) key annotation pdf σ).
  assert ((∃ gets,
             (SearchablePdfHandler.handle (traced call) sw payload (w, l)).2.2
             = l ++ gets ∧ Forall is_get gets)
          ∨ Ψ (SearchablePdfHandler.handle (traced call) sw payload (w, l)))
    as Hhandle.
  { unfold SearchablePdfHandler.handle.
    reads_lift kwargs Hkw. rewrite Hsettings in Hkw. injection Hkw as <-.
    reads_lift key' Hkey. simpl in Hkey. subst key'.
    reads_lift annotation Hann.
    reads_bind; [apply reads_searchable_pages|done|].
    intros pages σ1 Hbuild Hσ1.
    reads_bind; [apply sends_lift|done|]. intros pdf ? [= Hpdf <-] _.
    reads_bind; [apply sends_lift|done|].
    intros annotation' ? [= Hann' <-] _.
    rewrite Hann in Hann'. injection Hann' as <-.
    right. destruct Hσ1 as (gets & Hl & Hgets).
    by exists annotation, pages, pdf, σ1, gets. }
  unfold SearchablePdfHandler.rossum_hook_request_handler.
  destruct (SearchablePdfHandler.get_rossum_client payload) as [e|[[]|e|]];
    [by left|..|by left|by left].
  destruct Hhandle as [Hreads|(annotation & pages & pdf & σ & gets & Hann
                               & Hbuild & Hpdf & Hl & Hgets & Hrun)].
  - left. by destruct (SearchablePdfHandler.handle _ _ _ _).
  - right. exists annotation, pages, pdf, σ, gets.
    repeat (split; [done|]). rewrite Hrun.
    by destruct (SearchablePdf.store_pdf _ _ _ _ _).
Qed.

(** ** The annotations to process *)

Lemma py_eq_str_spec v s : py_eq_str v s = true ↔ v = VStr s.
Proof.
  destruct v; simpl; try by split.
  rewrite bool_decide_eq_true. split; [by intros ->|by intros [= ->]].
Qed.

Lemma dict_set_absent k v d :
  VStr k ∉ d.*1 → dict_set k v d = d ++ [(VStr k, v)].
Proof.
  induction d as [|[k' v'] d IH]; [done|].
  rewrite fmap_cons, not_elem_of_cons. intros [Hk Hd]. simpl.
  destruct (py_eq_str k' k) eqn:Heq.
  - apply py_eq_str_spec in Heq. by destruct Hk.
  - by rewrite IH.
Qed.

Lemma dict_set_present k v d :
  VStr k ∈ d.*1 →
  ∃ pre old post,
    d = pre ++ (VStr k, old) :: post
    ∧ (VStr k ∉ pre.*1)
    ∧ dict_set k v d = pre ++ (VStr k, v) :: post.
Proof.
  induction d as [|[k' v'] d IH]; [by intros ?%not_elem_of_nil|].
  rewrite fmap_cons. intros Hin. simpl.
  destruct (py_eq_str k' k) eqn:Heq.
  - apply py_eq_str_spec in Heq as ->.
    exists [], v', d. split; [done|]. split; [apply not_elem_of_nil|done].
  - apply elem_of_cons in Hin as [Hk|Hin].
    { simpl in Hk. subst k'. simpl in Heq.
      by rewrite bool_decide_eq_true_2 in Heq. }
    destruct (IH Hin) as (pre & old & post & -> & Hpre & ->).
    exists ((k', v') :: pre), old, post. split; [done|]. split; [|done].
    rewrite fmap_cons, not_elem_of_cons. split; [|done].
    simpl. intros Hk. subst k'. simpl in Heq.
    by rewrite bool_decide_eq_true_2 in Heq.
Qed.

(** X23. An annotation URL that is already among the annotations to process
    (the parent's, or one listed before) is not skipped: the annotation is
    fetched again, and the fetched copy takes the place of the stored one.
    The URLs and their order stay as they were.  A URL that is new is added
    at the end. *)
Theorem add_related_overwrites :
  ∀ {W} (call : Request → M W value) fuel relation acc a fetched w w' id_,
    Consolidation.get call fuel "annotations" (Some (VStr (last_segment a))) []
      w
    = (Ok fetched, w') →
    py_item relation "id" = Ok id_ →
    ∃ acc',
      ConsolidationHandler.add_related call fuel relation acc (VStr a) w
      = (Ok acc', w')
      ∧ (VStr a ∈ acc.*1 →
         acc'.*1 = acc.*1
         ∧ ∃ pre old post,
             acc = pre ++ (VStr a, old) :: post
             ∧ (VStr a ∉ pre.*1)
             ∧ acc' = pre ++ (VStr a, fetched) :: post)
      ∧ (VStr a ∉ acc.*1 → acc' = acc ++ [(VStr a, fetched)]).
Proof.
  intros W call fuel relation acc a fetched w w' id_ Hget Hid.
  exists (dict_set a fetched acc). split; [|split].
  - unfold ConsolidationHandler.add_related.
    run Hget. run_lift Hid. reflexivity.
  - intros Hin.
    destruct (dict_set_present a fetched acc Hin)
      as (pre & old & post & Hacc & Hpre & Hset).
    split; [|by exists pre, old, post].
    rewrite Hset, Hacc, !fmap_app, !fmap_cons. done.
  - apply dict_set_absent.
Qed.

Lemma add_related_overwrites_witness :
  ∃ acc',
    ConsolidationHandler.add_related
      (example_constant_call (VDict [("id", VInt 5); ("status", VStr "new")]))
      1 (VDict [("id", VInt 3)])
      [(VStr "https://x.test/api/v1/annotations/5", example_annotation)]
      (VStr "https://x.test/api/v1/annotations/5") tt
    = (Ok acc', tt)
    ∧ acc'.*1 = [VStr "https://x.test/api/v1/annotations/5"].
Proof.
  destruct (add_related_overwrites
              (example_constant_call
                 (VDict [("id", VInt 5); ("status", VStr "new")]))
              1 (VDict [("id", VInt 3)])
              [(VStr "https://x.test/api/v1/annotations/5",
                example_annotation)]
              "https://x.test/api/v1/annotations/5"
              (VDict [("id", VInt 5); ("status", VStr "new")]) tt tt (VInt 3)
              eq_refl eq_refl)
    as (acc' & Hrun & Hin & _).
  exists acc'. split; [exact Hrun|].
  apply Hin, list_elem_of_singleton. reflexivity.
Defined.

Lemma fold_M_preserves {W A B} (R : B → B → Prop) (f : B → A → M W B) :
  (∀ b, R b b) →
  (∀ b1 b2 b3, R b1 b2 → R b2 b3 → R b1 b3) →
  (∀ b x w b' w', f b x w = (Ok b', w') → R b b') →
  ∀ l b w b' w', fold_M f l b w = (Ok b', w') → R b b'.
Proof.
  intros Hrefl Htrans Hf l. induction l as [|x l IH]; intros b w b' w' Hrun.
  - apply ret_inv in Hrun as [-> _]. apply Hrefl.
  - simpl in Hrun. apply bind_inv_ok in Hrun as (b1 & w1 & Hx & Hrun).
    eapply Htrans; [by eapply Hf|by eapply IH].
Qed.

Lemma dict_set_keys k v d : d.*1 `prefix_of` (dict_set k v d).*1.
Proof.
  induction d as [|[k' v'] d IH]; simpl; [apply prefix_nil|].
  destruct (py_eq_str k' k); simpl; [done|]. by apply prefix_cons.
Qed.

(** X24. The loop that collects the related annotations never drops or
    reorders an entry: the URLs collected before it stay in front, in
    order, and new ones follow.  The parent, added first, stays first, so
    its pages open the PDF. *)
Theorem annotations_keep_order :
  ∀ {W} (call : Request → M W value) fuel relations acc w todo w',
    fold_M (ConsolidationHandler.add_relation call fuel) relations acc w
    = (Ok todo, w') →
    acc.*1 `prefix_of` todo.*1.
Proof.
  intros W call fuel relations acc w todo w'.
  apply (fold_M_preserves (λ b b' : list (value * value),
                             b.*1 `prefix_of` b'.*1)).
  - done.
  - intros b1 b2 b3 H12 H23. by etrans.
  - clear. intros b relation w b' w' Hrun.
    unfold ConsolidationHandler.add_relation in Hrun.
    inv_bind Hrun. revert Hrun.
    apply (fold_M_preserves (λ b b' : list (value * value),
                               b.*1 `prefix_of` b'.*1)).
    + done.
    + intros b1 b2 b3 H12 H23. by etrans.
    + clear. intros b annotation w b' w' Hrun.
      unfold ConsolidationHandler.add_related in Hrun.
      destruct annotation; try done.
      inv_bind Hrun. apply ret_inv in Hrun as [-> _]. apply dict_set_keys.
Qed.

Lemma annotations_keep_order_witness :
  ∃ todo,
    fold_M
      (ConsolidationHandler.add_relation
         (example_constant_call (VDict [("id", VInt 6)])) 1)
      [VDict [("id", VInt 3);
              ("annotations",
               VList [VStr "https://x.test/api/v1/annotations/6";
                      VStr "https://x.test/api/v1/annotations/5"])]]
      [(VStr "https://x.test/api/v1/annotations/5", example_annotation)]
      tt
    = (Ok todo, tt)
    ∧ todo.*1 = [VStr "https://x.test/api/v1/annotations/5";
                 VStr "https://x.test/api/v1/annotations/6"]
    ∧ [VStr "https://x.test/api/v1/annotations/5"] `prefix_of` todo.*1.
Proof.
  eexists. split; [reflexivity|]. split; [reflexivity|].
  eapply (annotations_keep_order
            (example_constant_call (VDict [("id", VInt 6)])) 1
            [VDict [("id", VInt 3);
                    ("annotations",
                     VList [VStr "https://x.test/api/v1/annotations/6";
                            VStr "https://x.test/api/v1/annotations/5"])]]
            [(VStr "https://x.test/api/v1/annotations/5", example_annotation)]
            tt _ tt).
  reflexivity.
Defined.

(** ** URLs *)

Lemma string_prefix_app p s r :
  String.prefix p s = true → String.prefix p (s +:+ r) = true.
Proof.
  revert s. induction p as [|c p IH]; intros s Hp.
  - by destruct (s +:+ r).
  - destruct s as [|c' s]; [done|]. simpl in *.
    destruct (ascii_dec c c'); [by apply IH|done].
Qed.

Lemma string_length_app s r :
  String.length (s +:+ r) = (String.length s + String.length r)%nat.
Proof. induction s as [|c s IH]; simpl; [done|]. by rewrite IH. Qed.

(** X25. The URLs [ApiClient] builds pass through [HttpClient.call]
    unchanged when the base URL starts with ["https://"].  When the URL
    built does not start with it (an ["http://"] base, say), the request
    goes to another address: the base and ["/api/v1/"] are put in front a
    second time. *)
Theorem call_url_of_api_url :
  ∀ base_url endpoint,
    (String.prefix "https://" base_url = true →
     call_url base_url (api_url base_url +:+ endpoint)
     = api_url base_url +:+ endpoint)
    ∧ (String.prefix "https://" (api_url base_url +:+ endpoint) = false →
       call_url base_url (api_url base_url +:+ endpoint)
       = api_url base_url +:+ api_url base_url +:+ endpoint
       ∧ call_url base_url (api_url base_url +:+ endpoint)
         ≠ api_url base_url +:+ endpoint).
Proof.
  intros base_url endpoint. split.
  - intros Hp. unfold call_url, api_url.
    by rewrite (string_prefix_app _ _ endpoint) by (by apply string_prefix_app).
  - intros Hp. unfold call_url. rewrite Hp. split.
    + unfold api_url. by rewrite !append_assoc.
    + intros Heq. apply (f_equal String.length) in Heq.
      unfold api_url in Heq. rewrite !string_length_app in Heq. simpl in Heq. lia.
Qed.

Lemma call_url_of_api_url_witness :
  call_url "https://x.test" (api_url "https://x.test" +:+ "documents")
  = "https://x.test/api/v1/documents"
  ∧ call_url "http://x.test" (api_url "http://x.test" +:+ "documents")
    = "http://x.test/api/v1/http://x.test/api/v1/documents".
Proof.
  split.
  - exact (proj1 (call_url_of_api_url "https://x.test" "documents") eq_refl).
  - exact (proj1 (proj2 (call_url_of_api_url "http://x.test" "documents")
                    eq_refl)).
Defined.

Lemma handlers_refuse_missing_token_witness :
  ConsolidationHandler.rossum_hook_request_handler example_hook_call
    example_stringWidth 5 (example_payload "annotation_content" (VStr "")) tt
  = (Raise ValueError, tt)
  ∧ SearchablePdfHandler.rossum_hook_request_handler example_hook_call
      example_stringWidth (example_payload "annotation_content" (VStr "")) tt
    = (inl {| SearchablePdfHandler.error_message :=
                "Configuration Error: Missing token owner of extension" |},
       tt).
Proof.
  exact (handlers_refuse_missing_token example_hook_call example_stringWidth
           5 (example_payload "annotation_content" (VStr "")) (VStr "") tt
           eq_refl eq_refl).
Defined.

Lemma consolidation_handler_skips_witness :
  ConsolidationHandler.rossum_hook_request_handler example_hook_call
    example_stringWidth 5 (example_payload "annotation_status" (VStr "t")) tt
  = (Raise KeyError, tt).
Proof.
  exact (consolidation_handler_skips example_hook_call example_stringWidth 5
           (example_payload "annotation_status" (VStr "t")) (VStr "t")
           (VStr "annotation_status") _ tt eq_refl eq_refl eq_refl
           (or_introl eq_refl) eq_refl).
Defined.

(** A whole run of each handler on the example: the requests, in order. *)
Lemma example_consolidation_run :
  ∃ pdf,
    ConsolidationHandler.rossum_hook_request_handler
      (traced example_hook_call) example_stringWidth 5
      (example_payload "annotation_content" (VStr "t")) (tt, [])
    = (Ok messages,
       (tt,
        [{| req_method := GET; req_target := Endpoint "relations" None;
            req_params := [("parent", VInt 5); ("type", VStr "attachment")];
            req_json := None; req_files := None |};
         {| req_method := GET;
            req_target := Endpoint "annotations/{id}/page_data" (Some (VInt 5));
            req_params := [("page_numbers", VStr "1,2");
                           ("granularity", VStr "lines")];
            req_json := None; req_files := None |};
         request GET (Link "https://x.test/api/v1/pages/51/content");
         request GET (Link "https://x.test/api/v1/pages/51");
         request GET (Link "https://x.test/api/v1/pages/52/content");
         request GET (Link "https://x.test/api/v1/pages/52");
         upload_request "5.pdf" pdf;
         list_request "k" 5;
         create_request "k" "https://x.test/api/v1/annotations/5"
           "https://x.test/api/v1/documents/9"]))
    ∧ shown_pages pdf = 2%nat.
Proof. eexists. split; vm_compute; reflexivity. Qed.

Lemma example_searchable_run :
  ∃ pdf,
    SearchablePdfHandler.rossum_hook_request_handler
      (traced example_hook_call) example_stringWidth
      (example_payload "annotation_content" (VStr "t")) (tt, [])
    = (inr (Ok messages),
       (tt,
        [{| req_method := GET;
            req_target :=
              Link "https://x.test/api/v1/annotations/5/page_data";
            req_params := [("granularity", VStr "lines");
                           ("page_numbers", VStr "1,2")];
            req_json := None; req_files := None |};
         request GET (Link "https://x.test/api/v1/pages/51/content");
         request GET (Link "https://x.test/api/v1/pages/51");
         request GET (Link "https://x.test/api/v1/pages/52/content");
         request GET (Link "https://x.test/api/v1/pages/52");
         list_request "k" 5;
         upload_request "5.pdf" pdf;
         sdk_create_request "k" "https://x.test/api/v1/annotations/5"
           "https://x.test/api/v1/documents/9"]))
    ∧ shown_pages pdf = 2%nat.
Proof. eexists. split; vm_compute; reflexivity. Qed.

Lemma consolidation_handler_reads_first_witness :
  let run :=
    ConsolidationHandler.rossum_hook_request_handler
      (traced example_hook_call) example_stringWidth 5
      (example_payload "annotation_content" (VStr "t")) (tt, []) in
  (∃ gets, run.2.2 = [] ++ gets ∧ Forall is_get gets)
  ∨ (∃ annotation annotations σ0 pages pdf σ gets,
       py_item (example_payload "annotation_content" (VStr "t")) "annotation"
       = Ok annotation
       ∧ Consolidation.build_page_data_list (traced example_hook_call) 5
           annotations σ0
         = (Ok pages, σ)
       ∧ create_ocr_overlay_pdf example_stringWidth default_font_name
           default_base_font_size default_vertical_adjustment_factor pages
         = Ok pdf
       ∧ σ.2 = [] ++ gets ∧ Forall is_get gets
       ∧ run = (Consolidation.upload_and_relate (traced example_hook_call) 5
                  pdf annotation "k" ;;; ret messages) σ).
Proof.
  exact (consolidation_handler_reads_first example_hook_call
           example_stringWidth 5
           (example_payload "annotation_content" (VStr "t")) "k" tt []
           eq_refl).
Defined.

Lemma searchable_handler_reads_first_witness :
  let run :=
    SearchablePdfHandler.rossum_hook_request_handler
      (traced example_hook_call) example_stringWidth
      (example_payload "annotation_content" (VStr "t")) (tt, []) in
  (∃ gets, run.2.2 = [] ++ gets ∧ Forall is_get gets)
  ∨ (∃ annotation pages pdf σ gets,
       py_item (example_payload "annotation_content" (VStr "t")) "annotation"
       = Ok annotation
       ∧ SearchablePdf.build_page_data_list (traced example_hook_call)
           annotation (tt, [])
         = (Ok pages, σ)
       ∧ create_ocr_overlay_pdf example_stringWidth default_font_name
           default_base_font_size default_vertical_adjustment_factor pages
         = Ok pdf
       ∧ σ.2 = [] ++ gets ∧ Forall is_get gets
       ∧ run = (inr (SearchablePdf.store_pdf (traced example_hook_call) "k"
                       annotation pdf σ).1,
                (SearchablePdf.store_pdf (traced example_hook_call) "k"
                   annotation pdf σ).2)).
Proof.
  exact (searchable_handler_reads_first example_hook_call
           example_stringWidth
           (example_payload "annotation_content" (VStr "t")) "k" tt []
           eq_refl).
Defined.
